(** * FitnessTracker: gamification and activity analysis

    A shallow embedding of the computations of the FitnessTracker
    application (XP rank lookup, XP reward and calorie preview of the
    workout page, login streak correction, weekly chart aggregation and
    dashboard insights), and the properties its specification states
    about them.

    JavaScript Numbers are IEEE 754 binary64 values; they are modelled by
    Rocq's primitive floats, whose operations are the same binary64
    operations.  Quantities the program only ever holds as integers
    (XP totals, day counts, per-day calorie totals) are modelled in [Z]. *)

From Stdlib Require Import ZArith List Sorted String Bool Lia.
From Stdlib Require Import Floats.
Import ListNotations.

Local Open Scope string_scope.
Local Open Scope list_scope.
Local Open Scope Z_scope.

(* The decimal literals 0.3, 0.8 and 1.2 stand, as in JavaScript, for the
   nearest binary64 values. *)
#[local] Set Warnings "-inexact-float".

(** ** JavaScript Number operations used by the sources *)

Module JS.

(** An integer of magnitude below 2^63 as a Number, with the sign of
    zero given apart. *)
Definition of_int (neg_zero_sign : bool) (n : Z) : float :=
  if n =? 0 then (if neg_zero_sign then neg_zero else zero)
  else if 0 <? n then of_uint63 (Uint63.of_Z n)
  else (- of_uint63 (Uint63.of_Z (- n)))%float.

(** The integer nearest to [num / 2^k], the upper one of two that are
    equally near: [floor (num / 2^k + 1/2)]. *)
Definition round_half_up (num k : Z) : Z :=
  (2 * num + 2 ^ k) / 2 ^ (k + 1).

(** [Math.round]: NaN, the infinities and integral Numbers are returned
    as they are; any other Number [x], of value [+-m * 2^e] with
    [e < 0], gives the integer nearest to it, computed exactly (ties go
    towards plus infinity), and a zero result keeps the sign of [x]. *)
Definition Math_round (x : float) : float :=
  match Prim2SF x with
  | S754_finite s m e =>
      if 0 <=? e then x
      else of_int s (round_half_up (cond_Zopp s (Zpos m)) (- e))
  | _ => x
  end.

Definition is_neg_zero (x : float) : bool :=
  is_zero x && get_sign x.

(** [Math.max] of two arguments: NaN if either is NaN, otherwise the
    larger one, where [+0] is larger than [-0]. *)
Definition Math_max (a b : float) : float :=
  if is_nan a || is_nan b then nan
  else if (a <? b)%float then b
  else if (b <? a)%float then a
  else if is_neg_zero a then b else a.

(** ToBoolean on a Number: [0], [-0] and [NaN] are falsy. *)
Definition truthy (x : float) : bool :=
  negb (is_nan x || is_zero x).

(** A property that holds a Number or is [undefined]. *)
Definition prop := option float.

(** ToNumber of such a property: [undefined] becomes [NaN]. *)
Definition to_number (p : prop) : float :=
  match p with Some x => x | None => nan end.

(** [p || d] where [d] is a Number. *)
Definition or_default (p : prop) (d : float) : float :=
  match p with
  | Some x => if truthy x then x else d
  | None => d
  end.

End JS.

(** ** The workout page (calorie and XP preview) *)

Module Workout.

(** An entry of the workout type catalog as the page receives it. *)
Record WorkoutType := {
  type : string;
  inputType : string;
  caloriesPer30Min : JS.prop;
  caloriesPerRep : JS.prop
}.

Record User := { weight : JS.prop }.

(** The component state [calculateEstimatedCalories] reads.  The range
    inputs hand [duration], [reps] and [sets] over as numeric strings;
    they are held here after the ToNumber conversion that [/] and [*]
    apply to them. *)
Record State := {
  user : option User;
  selectedType : option WorkoutType;
  duration : float;
  reps : float;
  sets : float;
  intensity : string
}.

(** What a call of a JavaScript function completes with. *)
Inductive completion :=
| Return (v : float)
| Throw (message : string).

Definition intensityMod (intensity : string) : float :=
  if String.eqb intensity "high" then 1.2%float
  else if String.eqb intensity "low" then 0.8%float
  else 1%float.

(** [user?.weight || 70] *)
Definition userWeight (u : option User) : float :=
  JS.or_default (match u with Some u => weight u | None => None end) 70%float.

Definition calculateEstimatedCalories (st : State) : completion :=
  match selectedType st with
  | None => Return 0%float
  | Some ty =>
      let intensityMod := intensityMod (intensity st) in
      let userWeight := userWeight (user st) in
      if String.eqb (inputType ty) "time" then
        Return (JS.Math_round
                  (JS.to_number (caloriesPer30Min ty)
                   * (duration st / 30) * intensityMod)%float)
      else
        let totalReps := (reps st * sets st)%float in
        let caloriesPerRep := JS.or_default (caloriesPerRep ty) 0.3%float in
        Return (JS.Math_round
                  (caloriesPerRep * totalReps * intensityMod
                   * (userWeight / 70))%float)
  end.

End Workout.

(** XP reward preview of the workout form:
    [Math.max(5, Math.round(calculateEstimatedCalories() / 2))]. *)
Module XpPreview.

Definition xpReward (caloriesBurned : float) : float :=
  JS.Math_max 5 (JS.Math_round (caloriesBurned / 2)).

Definition xpRewardPreview (st : Workout.State) : Workout.completion :=
  match Workout.calculateEstimatedCalories st with
  | Workout.Return c => Workout.Return (xpReward c)
  | Workout.Throw e => Workout.Throw e
  end.

End XpPreview.

(** ** The user model: rank from XP *)

Module User.

Record Level := { rank : string; minXp : Z }.

Definition levels : list Level :=
  [ {| rank := "E"; minXp := 0 |};
    {| rank := "D"; minXp := 1000 |};
    {| rank := "C"; minXp := 2500 |};
    {| rank := "B"; minXp := 5000 |};
    {| rank := "A"; minXp := 10000 |};
    {| rank := "S"; minXp := 20000 |};
    {| rank := "NATIONAL"; minXp := 50000 |} ].

(** [[...levels].reverse().find(l => xp >= l.minXp) || levels[0]] over a
    tier table [levels]; [None] stands for [undefined], which
    [levels[0]] is for an empty table. *)
Definition getLevelIn (levels : list Level) (xp : Z) : option Level :=
  match find (fun l => minXp l <=? xp) (rev levels) with
  | Some l => Some l
  | None => nth_error levels 0
  end.

(** The method of the schema, with its own table. *)
Definition getLevel (xp : Z) : option Level := getLevelIn levels xp.

End User.

(** ** Dates *)

Module Date.

Definition msPerDay : Z := 1000 * 60 * 60 * 24.

Section LocalTime.
(** The local time zone, as the milliseconds local time is ahead of
    UTC, taken as fixed (no daylight saving change). *)
Variable tz : Z.

(** The local calendar day an instant (milliseconds since the epoch)
    falls in, counted from 1 January 1970. *)
Definition localDay (t : Z) : Z := (t + tz) / msPerDay.

(** [d.setHours(0, 0, 0, 0)]: the instant of local midnight. *)
Definition setHours0 (t : Z) : Z := localDay t * msPerDay - tz.

(** [d.getDay()]: 0 is Sunday; 1 January 1970 was a Thursday. *)
Definition getDay (t : Z) : Z := (localDay t + 4) mod 7.
End LocalTime.

End Date.

(** ** Login: the streak correction of [router.post('/login')] *)

Module Auth.

Record User := { streak : Z; lastWorkoutDate : option Z }.

(** The part of the login handler after the password check that
    touches the user; [now] is [new Date()].  Both midnights are
    integers below 2^53, so [Math.floor] of their quotient is the
    integer quotient. *)
Definition loginStreak (tz now : Z) (user : User) : User :=
  let today := Date.setHours0 tz now in
  match lastWorkoutDate user with
  | Some d =>
      let lastWorkout := Date.setHours0 tz d in
      let diffDays := (today - lastWorkout) / Date.msPerDay in
      if 1 <? diffDays
      then {| streak := 0; lastWorkoutDate := lastWorkoutDate user |}
      else user
  | None => user
  end.

End Auth.

(** ** The streak rule on a logged activity *)

Module Streak.

Record State := { streakCount : N; lastActivityDate : option Z }.

(** Modelled from the spec: the route that logs a workout
    (server/routes/workouts.js) and updates the streak is not among the
    sources.  The transition rule of the specification on a new
    qualifying activity at calendar day [D]; the specification gives no
    rule for a day before [lastActivityDate], where the result is
    [None]. *)
Definition applyStreak (s : State) (D : Z) : option State :=
  match lastActivityDate s with
  | None => Some {| streakCount := 1; lastActivityDate := Some D |}
  | Some last =>
      if D =? last then Some s
      else if D - last =? 1 then
        Some {| streakCount := streakCount s + 1; lastActivityDate := Some D |}
      else if 1 <? D - last then
        Some {| streakCount := 1; lastActivityDate := Some D |}
      else None
  end.

End Streak.

(** ** The dashboard page: weekly chart data and insights *)

Module Dashboard.

(** [p || d] on a property that holds an integer Number or is
    [undefined]. *)
Definition or_default (p : option Z) (d : Z) : Z :=
  match p with
  | Some x => if x =? 0 then d else x
  | None => d
  end.

(** A row of [stats.weekly.meals]: [date] and [calories]. *)
Record MealRow := { m_date : Z; calories : Z }.

(** A row of [stats.weekly.workouts]: [date], [totalCalories], [count]
    and [totalDuration]. *)
Record WorkoutRow := {
  w_date : Z;
  totalCalories : Z;
  count : Z;
  totalDuration : Z
}.

Record Today := { caloriesBurned : option Z; caloriesConsumed : option Z }.

Record Weekly := {
  meals : option (list MealRow);
  workouts : option (list WorkoutRow)
}.

Record Stats := { today : option Today; weekly : option Weekly }.

Record User := {
  dailyBurnGoal : option Z;
  dailyCalorieGoal : option Z;
  streak : option Z
}.

Record ChartRow := {
  day : string;
  intake : Z;
  burned : Z;
  net : Z;
  workoutCount : Z;
  duration : Z
}.

Definition weekDays : list string :=
  ["Mon"; "Tue"; "Wed"; "Thu"; "Fri"; "Sat"; "Sun"].

(** [l.map((x, index) => f(x, index))], the index starting at [i]. *)
Fixpoint mapi_from {A B : Type} (f : A -> Z -> B) (i : Z) (l : list A) : list B :=
  match l with
  | [] => []
  | x :: rest => f x i :: mapi_from f (i + 1) rest
  end.

Section Page.
Variable tz : Z.
(** [stats] is [null] until the request for it has answered. *)
Variable stats : option Stats.

(** [stats?.weekly?.meals] and [stats?.weekly?.workouts] *)
Definition weeklyMeals : option (list MealRow) :=
  match stats with
  | Some s => match weekly s with Some w => meals w | None => None end
  | None => None
  end.

Definition weeklyWorkouts : option (list WorkoutRow) :=
  match stats with
  | Some s => match weekly s with Some w => workouts w | None => None end
  | None => None
  end.

(** The callback of [weekDays.map]. *)
Definition chartRow (day : string) (index : Z) : ChartRow :=
  let mealData :=
    match weeklyMeals with
    | Some ms =>
        find (fun m =>
                let mealDay := Date.getDay tz (m_date m) in
                let adjustedIndex := (index + 1) mod 7 in
                mealDay =? adjustedIndex) ms
    | None => None
    end in
  let workoutData :=
    match weeklyWorkouts with
    | Some ws =>
        find (fun w =>
                let workoutDay := Date.getDay tz (w_date w) in
                let adjustedIndex := (index + 1) mod 7 in
                workoutDay =? adjustedIndex) ws
    | None => None
    end in
  let intake := or_default (option_map calories mealData) 0 in
  let burned := or_default (option_map totalCalories workoutData) 0 in
  let netCalories := intake - burned in
  {| day := day;
     intake := intake;
     burned := burned;
     net := netCalories;
     workoutCount := or_default (option_map count workoutData) 0;
     duration := or_default (option_map totalDuration workoutData) 0 |}.

Definition weeklyChartData : list ChartRow :=
  mapi_from chartRow 0 weekDays.

(** [weeklyChartData.reduce((sum, d) => sum + d.intake, 0)] and its
    siblings. *)
Definition totalIntake : Z :=
  fold_left (fun sum d => sum + intake d) weeklyChartData 0.
Definition totalBurned : Z :=
  fold_left (fun sum d => sum + burned d) weeklyChartData 0.
Definition totalWorkouts : Z :=
  fold_left (fun sum d => sum + workoutCount d) weeklyChartData 0.
Definition totalDuration' : Z :=
  fold_left (fun sum d => sum + duration d) weeklyChartData 0.
End Page.

(** The texts of the insights, by the template each is built from. *)
Inductive message :=
| GoalCrushed (todayBurned : Z)   (* Goal crushed! You burned N kcal today! *)
| KeepGoing (remaining : Z)       (* Keep going! N kcal more to hit your daily goal *)
| NoWorkoutToday                  (* No workout today yet. Time to get moving! *)
| CalorieSurplus (balance : Z)    (* Calorie surplus of N kcal today. Consider a workout! *)
| GreatDeficit (deficit : Z)      (* Great deficit! N kcal burned vs intake *)
| ExcellentWeek (workouts : Z)    (* Excellent! N workouts this week. You're on fire! *)
| GoodWeek (workouts : Z)         (* Good week with N workouts. Try for 5 next week! *)
| DayStreak (streak : Z).         (* N day streak! You're unstoppable! *)

(** An insight: its [type] and [text] (the icon is presentation only). *)
Record Insight := { type : string; text : message }.

(** [const insights = []; ... insights.push(...) ...; return insights]:
    each [push] appends to the list built so far. *)
Definition push (insights : list Insight) (i : Insight) : list Insight :=
  insights ++ [i].

Definition getActivityInsights (user : option User) (stats : option Stats)
    (totalWorkouts : Z) : list Insight :=
  let insights := [] in
  let dailyGoal :=
    or_default (match user with Some u => dailyBurnGoal u | None => None end) 500 in
  let calorieGoal :=
    or_default (match user with Some u => dailyCalorieGoal u | None => None end) 2000 in
  let today' :=
    match stats with Some s => today s | None => None end in
  let todayBurned :=
    or_default (match today' with Some t => caloriesBurned t | None => None end) 0 in
  let todayIntake :=
    or_default (match today' with Some t => caloriesConsumed t | None => None end) 0 in
  (* Today's progress insight *)
  let insights :=
    if dailyGoal <=? todayBurned then
      push insights {| type := "success"; text := GoalCrushed todayBurned |}
    else if 0 <? todayBurned then
      let remaining := dailyGoal - todayBurned in
      push insights {| type := "info"; text := KeepGoing remaining |}
    else
      push insights {| type := "warning"; text := NoWorkoutToday |} in
  (* Calorie balance insight *)
  let insights :=
    if (0 <? todayIntake) && (0 <? todayBurned) then
      let balance := todayIntake - todayBurned in
      if 500 <? balance then
        push insights {| type := "warning"; text := CalorieSurplus balance |}
      else if balance <? -300 then
        push insights {| type := "success"; text := GreatDeficit (Z.abs balance) |}
      else insights
    else insights in
  (* Weekly consistency insight *)
  let insights :=
    if 5 <=? totalWorkouts then
      push insights {| type := "success"; text := ExcellentWeek totalWorkouts |}
    else if 3 <=? totalWorkouts then
      push insights {| type := "info"; text := GoodWeek totalWorkouts |}
    else insights in
  (* Streak insight *)
  let insights :=
    match (match user with Some u => streak u | None => None end) with
    | Some n =>
        if 7 <=? n then push insights {| type := "success"; text := DayStreak n |}
        else insights
    | None => insights
    end in
  insights.

(** [const insights = getActivityInsights()] in the page. *)
Definition insights (tz : Z) (user : option User) (stats : option Stats)
    : list Insight :=
  getActivityInsights user stats (totalWorkouts tz stats).

End Dashboard.

(** ** The dashboard page: the weekly net *)

Module DashboardTotals.
Import Dashboard.

(** [const netWeekly = totalIntake - totalBurned] *)
Definition netWeekly (tz : Z) (stats : option Stats) : Z :=
  totalIntake tz stats - totalBurned tz stats.

End DashboardTotals.

(** ** The workout page: selecting and submitting a workout *)

Module WorkoutPage.
Import Workout.

(** The workout of a response of [POST /workouts], by the fields the
    page reads. *)
Record LoggedWorkout := {
  w_type : string;
  caloriesBurned : float;
  xpEarned : float
}.

(** [response.data.user]: the new [xp] and [streak]. *)
Record ResponseUser := { xp : float; streak : float }.

Record Response := { workout : LoggedWorkout; r_user : option ResponseUser }.

(** The data sent with the request. *)
Record WorkoutData := {
  wd_type : string;
  wd_intensity : string;
  wd_duration : option float;
  wd_reps : option float;
  wd_sets : option float
}.

(** How the request ends: with a response, or with an error that may
    carry a message of the server ([error.response?.data?.message]). *)
Inductive ApiResult :=
| Resolved (response : Response)
| Rejected (message : option string).

Inductive Message :=
| WorkoutLogged (xpEarned : float)  (* Workout logged! +N XP earned *)
| Text (s : string).

Record Notification := { n_type : string; n_message : Message }.

(** The state of the page: the form the estimate is computed from, and
    the rest. *)
Record Page := {
  form : State;
  showForm : bool;
  recentWorkouts : list LoggedWorkout;
  submitting : bool;
  notification : option Notification
}.

Definition handleSelectWorkout (p : Page) (type : WorkoutType) : Page :=
  let f := form p in
  let time := String.eqb (inputType type) "time" in
  {| form := {| user := user f;
                selectedType := Some type;
                duration := if time then 30%float else duration f;
                reps := if time then reps f else 20%float;
                sets := if time then sets f else 3%float;
                intensity := "moderate" |};
     showForm := true;
     recentWorkouts := recentWorkouts p;
     submitting := submitting p;
     notification := notification p |}.

(** [workoutData]: the type and the intensity, and the duration or the
    reps and sets. *)
Definition workoutData (f : State) (ty : WorkoutType) : WorkoutData :=
  let time := String.eqb (inputType ty) "time" in
  {| wd_type := type ty;
     wd_intensity := intensity f;
     wd_duration := if time then Some (duration f) else None;
     wd_reps := if time then None else Some (reps f);
     wd_sets := if time then None else Some (sets f) |}.

(** [updateUser({ xp, streak })], that is [{ ...user, xp, streak }], on
    the field of the user this model holds: the weight is kept, and a
    [null] user becomes an object without a weight. *)
Definition updateUser (u : option User) : option User :=
  Some {| weight := match u with Some u => weight u | None => None end |}.

(** [m || 'Failed to log workout'] *)
Definition errorMessage (m : option string) : string :=
  match m with
  | Some s => if String.eqb s "" then "Failed to log workout" else s
  | None => "Failed to log workout"
  end.

(** [handleSubmitWorkout], from the click to the end of its [finally];
    [api] is [workoutAPI.create]. *)
Definition handleSubmitWorkout (api : WorkoutData -> ApiResult) (p : Page) : Page :=
  let f := form p in
  match selectedType f with
  | None => p
  | Some ty =>
      match api (workoutData f ty) with
      | Resolved response =>
          {| form := {| user := match r_user response with
                                | Some _ => updateUser (user f)
                                | None => user f
                                end;
                        selectedType := None;
                        duration := duration f;
                        reps := reps f;
                        sets := sets f;
                        intensity := intensity f |};
             showForm := false;
             recentWorkouts := workout response :: firstn 4 (recentWorkouts p);
             submitting := false;
             notification :=
               Some {| n_type := "success";
                       n_message := WorkoutLogged (xpEarned (workout response)) |} |}
      | Rejected message =>
          {| form := f;
             showForm := showForm p;
             recentWorkouts := recentWorkouts p;
             submitting := false;
             notification :=
               Some {| n_type := "error";
                       n_message := Text (errorMessage message) |} |}
      end
  end.

End WorkoutPage.

(** ** The authentication middleware *)

Module Middleware.

(** [s.split(' ')]: the pieces of [s] between the occurrences of the
    separator. *)
Fixpoint split (sep : Ascii.ascii) (s : string) : list string :=
  match s with
  | EmptyString => [EmptyString]
  | String c rest =>
      if Ascii.eqb c sep then EmptyString :: split sep rest
      else match split sep rest with
           | piece :: pieces => String c piece :: pieces
           | [] => [String c EmptyString]
           end
  end.

(** What [jwt.verify] does with a token: it returns the payload, of
    which the [id] is read, or throws an error of some name. *)
Inductive Verified :=
| Decoded (id : string)
| VerifyThrew (name : string).

(** What [User.findById] does: a user, [null], or an error thrown. *)
Inductive Lookup (U : Type) :=
| Found (u : U)
| NotFound
| LookupThrew (name : string).
Arguments Found {U} u.
Arguments NotFound {U}.
Arguments LookupThrew {U} name.

(** How [protect] ends: with [next()], [req.user] set, or with a 401
    response of some message. *)
Inductive Outcome (U : Type) :=
| Next (user : U)
| Unauthorized (message : string).
Arguments Next {U} user.
Arguments Unauthorized {U} message.

(** The space character. *)
Definition space : Ascii.ascii :=
  Ascii.Ascii false false false false false true false false.

(** The token [protect] reads from the Authorization header. *)
Definition token (authorization : option string) : option string :=
  match authorization with
  | Some h =>
      if negb (String.eqb h "") && String.prefix "Bearer" h
      then nth_error (split space h) 1
      else None
  | None => None
  end.

(** The message of the [catch] block. *)
Definition catchMessage (name : string) : string :=
  if String.eqb name "TokenExpiredError"
  then "Token expired. Please log in again."
  else "Not authorized. Token is invalid.".

Section Protect.
Variable U : Type.
Variable verify : string -> Verified.
Variable findById : string -> Lookup U.

Definition protect (authorization : option string) : Outcome U :=
  match token authorization with
  | None =>
      Unauthorized "Not authorized to access this route. No token provided."
  | Some t =>
      if String.eqb t "" then
        Unauthorized "Not authorized to access this route. No token provided."
      else
        match verify t with
        | Decoded id =>
            match findById id with
            | Found u => Next u
            | NotFound => Unauthorized "User not found. Token may be invalid."
            | LookupThrew name => Unauthorized (catchMessage name)
            end
        | VerifyThrew name => Unauthorized (catchMessage name)
        end
  end.
End Protect.

End Middleware.

(** ** The body visualizer of the dashboard *)

Module BodyVisualizer.

(** [Math.min] of two arguments: NaN if either is NaN, otherwise the
    smaller one, where [-0] is smaller than [+0]. *)
Definition Math_min (a b : float) : float :=
  if is_nan a || is_nan b then nan
  else if (a <? b)%float then a
  else if (b <? a)%float then b
  else if JS.is_neg_zero a then a else b.

Record Category := { label : string; color : string }.

Record Ranges := {
  essential : float;
  athletes : float;
  fitness : float;
  average : float
}.

Definition ranges (gender : string) : Ranges :=
  if String.eqb gender "female"
  then {| essential := 12; athletes := 18; fitness := 25; average := 32 |}
  else {| essential := 5; athletes := 12; fitness := 18; average := 25 |}.

Definition getBodyFatCategory (bodyFat : float) (gender : string) : Category :=
  let ranges := ranges gender in
  if (bodyFat <=? essential ranges)%float then
    {| label := "Essential"; color := "text-cyan-400" |}
  else if (bodyFat <=? athletes ranges)%float then
    {| label := "Athletic"; color := "text-blue-400" |}
  else if (bodyFat <=? fitness ranges)%float then
    {| label := "Fitness"; color := "text-green-400" |}
  else if (bodyFat <=? average ranges)%float then
    {| label := "Average"; color := "text-amber-400" |}
  else {| label := "Above Average"; color := "text-red-400" |}.

(** The place of the mark on the body fat scale, in percent of its
    height: [Math.min(Math.max((bodyFat - 5) / 40 * 100, 0), 100)]. *)
Definition indicatorTop (bodyFat : float) : float :=
  Math_min (JS.Math_max ((bodyFat - 5) / 40 * 100) 0) 100.

End BodyVisualizer.

(** ** The login route *)

Module LoginRoute.

(** The body of a login request: each of [email], [username] and
    [password] is a string or is missing. *)
Record Request := {
  email : option string;
  username : option string;
  password : option string
}.

(** A user document: its id, and the streak state the handler works
    on; [P] stands for the fields the handler only copies into the
    response (username, email, height, weight, body fat, XP, goal). *)
Record Account (P : Type) := {
  id : string;
  profile : P;
  state : Auth.User
}.
Arguments id {P} _.
Arguments profile {P} _.
Arguments state {P} _.

Inductive Response (P : Type) :=
| BadRequest (errors : list string)               (* 400, the validation errors *)
| InvalidCredentials                              (* 401, 'Invalid credentials' *)
| LoginSuccessful (token : string) (user : Account P).  (* 200 *)
Arguments BadRequest {P} errors.
Arguments InvalidCredentials {P}.
Arguments LoginSuccessful {P} token user.

Section Handler.
Variable P : Type.
(** [s.toLowerCase()] *)
Variable toLowerCase : string -> string.
(** [User.findOne({ $or: [{ email }, { username }] })], by the two
    values of the query. *)
Variable findOne : option string -> option string -> option (Account P).
(** [user.comparePassword(password)] *)
Variable comparePassword : Account P -> string -> bool.
Variable generateToken : string -> string.
Variable tz : Z.

(** The handler of [POST /login], the database and the password check
    taken to answer: the response, and the user document that was
    saved, if one was. *)
Definition login (now : Z) (req : Request) : Response P * option (Account P) :=
  match password req with
  | None => (BadRequest ["Password is required"], None)
  | Some password =>
      match findOne (option_map toLowerCase (email req)) (username req) with
      | None => (InvalidCredentials, None)
      | Some user =>
          if comparePassword user password then
            let today := Date.setHours0 tz now in
            let reset :=
              match Auth.lastWorkoutDate (state user) with
              | Some d =>
                  let lastWorkout := Date.setHours0 tz d in
                  let diffDays := (today - lastWorkout) / Date.msPerDay in
                  1 <? diffDays
              | None => false
              end in
            if reset then
              let user' :=
                {| id := id user; profile := profile user;
                   state := {| Auth.streak := 0;
                               Auth.lastWorkoutDate :=
                                 Auth.lastWorkoutDate (state user) |} |} in
              (LoginSuccessful (generateToken (id user)) user', Some user')
            else (LoginSuccessful (generateToken (id user)) user, None)
          else (InvalidCredentials, None)
      end
  end.
End Handler.

End LoginRoute.

(** * The specification's wording

    Definitions that follow the words of the specification, to be
    compared with the definitions above. *)

(** ** Calorie estimate and XP reward *)

Module EstimateSpec.

(** The estimator as the specification words it. *)

Inductive Intensity := low | moderate | high.

Definition intensityFactor (i : Intensity) : float :=
  match i with
  | low => 0.8
  | moderate => 1.0
  | high => 1.2
  end.

(** The value of the page's [intensity] state for each level. *)
Definition intensityName (i : Intensity) : string :=
  match i with
  | low => "low"
  | moderate => "moderate"
  | high => "high"
  end.

(** Duration mode:
    [ratePer30Min * (durationMinutes / 30) * intensityFactor], rounded
    to the nearest integer. *)
Definition estimateDuration (ratePer30Min durationMinutes : float)
    (i : Intensity) : float :=
  JS.Math_round (ratePer30Min * (durationMinutes / 30) * intensityFactor i)%float.

(** Count mode:
    [caloriesPerRep * reps * sets * intensityFactor
     * (userWeightKg / referenceWeightKg)], rounded to the nearest
    integer; [reps * sets] is the total number of repetitions. *)
Definition estimateCount (caloriesPerRep reps sets : float) (i : Intensity)
    (userWeightKg referenceWeightKg : float) : float :=
  JS.Math_round (caloriesPerRep * (reps * sets) * intensityFactor i
                 * (userWeightKg / referenceWeightKg))%float.

(** [max(minimumXpFloor, round(caloriesBurned / xpDivisor))] *)
Definition computeXpReward (minimumXpFloor xpDivisor caloriesBurned : float)
    : float :=
  JS.Math_max minimumXpFloor (JS.Math_round (caloriesBurned / xpDivisor)).

End EstimateSpec.

(** ** Insight categories *)

Module InsightSpec.
Import Dashboard.

(** The values [getActivityInsights] reads from the user and the
    stats. *)
Definition dailyGoalOf (user : option User) : Z :=
  or_default (match user with Some u => dailyBurnGoal u | None => None end) 500.

Definition todayBurnedOf (stats : option Stats) : Z :=
  or_default
    (match stats with
     | Some s => match today s with Some t => caloriesBurned t | None => None end
     | None => None
     end) 0.

Definition todayIntakeOf (stats : option Stats) : Z :=
  or_default
    (match stats with
     | Some s => match today s with Some t => caloriesConsumed t | None => None end
     | None => None
     end) 0.

Definition streakOf (user : option User) : option Z :=
  match user with Some u => streak u | None => None end.

(** The four categories as the specification words them. *)

(** 1. Today's-goal progress: burned >= goal is a success; 0 < burned <
    goal an info with the remaining amount; burned = 0 a warning. *)
Definition goalProgress (goal burned : Z) : list Insight :=
  if goal <=? burned then [ {| type := "success"; text := GoalCrushed burned |} ]
  else if 0 <? burned then [ {| type := "info"; text := KeepGoing (goal - burned) |} ]
  else if burned =? 0 then [ {| type := "warning"; text := NoWorkoutToday |} ]
  else [].

(** 2. Calorie balance, only if both intake and burned are positive:
    a surplus above 500 is a warning; intake - burned < -300 a
    success. *)
Definition calorieBalance (intake burned : Z) : list Insight :=
  if (0 <? intake) && (0 <? burned) then
    if 500 <? intake - burned then
      [ {| type := "warning"; text := CalorieSurplus (intake - burned) |} ]
    else if intake - burned <? -300 then
      [ {| type := "success"; text := GreatDeficit (burned - intake) |} ]
    else []
  else [].

(** 3. Weekly consistency: 5 workouts or more are a success; 3 or 4 an
    info. *)
Definition weeklyConsistency (workouts : Z) : list Insight :=
  if 5 <=? workouts then [ {| type := "success"; text := ExcellentWeek workouts |} ]
  else if 3 <=? workouts then [ {| type := "info"; text := GoodWeek workouts |} ]
  else [].

(** 4. Streak: 7 days or more are a success. *)
Definition streakInsight (streak : option Z) : list Insight :=
  match streak with
  | Some n => if 7 <=? n then [ {| type := "success"; text := DayStreak n |} ] else []
  | None => []
  end.

End InsightSpec.

(** * Properties *)

(** ** Rank lookup *)

Module RankProps.
Import User.

(** A tier table in ascending order: every tier's threshold is below
    the thresholds of the tiers after it. *)
Definition ascending (levels : list Level) : Prop :=
  StronglySorted (fun a b => minXp a < minXp b) levels.

(** The tiers of the specification's scenario. *)
Definition scenarioTable : list Level :=
  [ {| rank := "base"; minXp := 0 |};
    {| rank := "D"; minXp := 1000 |};
    {| rank := "C"; minXp := 2500 |} ].

Section Find.
Context {A : Type} (p : A -> bool).

(** [find] on the reversed list returns the last element that
    satisfies the test. *)
Lemma find_rev_last (l : list A) (t : A) :
  find p (rev l) = Some t ->
  exists l1 l2, l = l1 ++ t :: l2 /\ p t = true /\
                forall y, In y l2 -> p y = false.
Proof.
  induction l as [|a l IH] using rev_ind; [discriminate|].
  rewrite rev_app_distr; cbn [rev app find].
  destruct (p a) eqn:Ha.
  - intros [= <-]. exists l, []. repeat split; trivial.
    intros y [].
  - intros H. destruct (IH H) as (l1 & l2 & -> & Ht & Hl2).
    exists l1, (l2 ++ [a]). rewrite <- app_assoc. repeat split; trivial.
    intros y Hy. apply in_app_or in Hy as [Hy|[<-|[]]]; auto.
Qed.

Lemma find_rev_none (l : list A) :
  find p (rev l) = None -> forall y, In y l -> p y = false.
Proof.
  intros H y Hy. apply (find_none p (rev l) H). now apply in_rev in Hy.
Qed.
End Find.

Lemma ascending_middle (l1 l2 : list Level) (t : Level) :
  ascending (l1 ++ t :: l2) ->
  (forall y, In y l1 -> minXp y < minXp t) /\
  (forall y, In y l2 -> minXp t < minXp y).
Proof.
  unfold ascending. induction l1 as [|a l1 IH]; cbn [app]; intros H.
  - apply StronglySorted_inv in H as [_ H]. split; [intros y []|].
    now apply Forall_forall.
  - apply StronglySorted_inv in H as [Hs Ha].
    destruct (IH Hs) as [H1 H2]. split; trivial.
    intros y [<-|Hy]; auto.
    rewrite Forall_forall in Ha. apply Ha, in_elt.
Qed.

(** Whatever the table, the lookup answers with a tier of the table as
    soon as the table is not empty. *)
Lemma getLevelIn_defined (base : Level) (rest : list Level) (x : Z) :
  exists t, getLevelIn (base :: rest) x = Some t /\ In t (base :: rest).
Proof.
  unfold getLevelIn.
  destruct (find _ (rev (base :: rest))) as [t|] eqn:E.
  - exists t. split; trivial. apply find_some in E as [E _].
    now apply in_rev in E.
  - exists base. split; [reflexivity | now left].
Qed.

(** The fallback: below every threshold the first tier is returned. *)
Lemma getLevelIn_below (base : Level) (rest : list Level) (x : Z) :
  (forall t, In t (base :: rest) -> x < minXp t) ->
  getLevelIn (base :: rest) x = Some base.
Proof.
  intros H. unfold getLevelIn.
  destruct (find _ (rev (base :: rest))) as [t|] eqn:E; [|reflexivity].
  apply find_some in E as [Hin Ht]. apply in_rev in Hin.
  apply H in Hin. apply Z.leb_le in Ht. lia.
Qed.

Lemma getLevelIn_greatest (levels : list Level) (x : Z) (t : Level) :
  ascending levels ->
  find (fun l => minXp l <=? x) (rev levels) = Some t ->
  In t levels /\ minXp t <= x /\
  (forall t', In t' levels -> minXp t' <= x -> minXp t' <= minXp t) /\
  (forall t', In t' levels -> minXp t' = minXp t -> t' = t).
Proof.
  intros Hasc E.
  apply find_rev_last in E as (l1 & l2 & -> & Ht & Hl2).
  apply Z.leb_le in Ht.
  destruct (ascending_middle _ _ _ Hasc) as [H1 H2].
  split; [apply in_elt|]. split; [exact Ht|]. split.
  - intros t' Hin Hle. apply in_app_or in Hin as [Hin|[<-|Hin]].
    + apply H1 in Hin. lia.
    + lia.
    + apply Hl2 in Hin. apply Z.leb_gt in Hin. lia.
  - intros t' Hin Heq. apply in_app_or in Hin as [Hin|[<-|Hin]].
    + apply H1 in Hin. lia.
    + reflexivity.
    + apply H2 in Hin. lia.
Qed.

(** C1. For an ascending tier table whose first tier has threshold 0 and
    every XP value [x >= 0], the rank lookup returns one tier of the
    table: its threshold is at most [x], no tier of the table with a
    threshold at most [x] has a greater one, and it is the only tier
    with that threshold.  Below the lowest threshold of a table the
    lookup returns the table's first tier.  With the tiers base (0),
    D (1000), C (2500), and with the table of the program, 1000 XP give
    rank D and 999 XP give the base rank. *)
Theorem getLevel_greatest_threshold :
  (forall (base : Level) (rest : list Level) (x : Z),
      minXp base = 0 -> ascending (base :: rest) -> 0 <= x ->
      exists t,
        getLevelIn (base :: rest) x = Some t /\
        In t (base :: rest) /\ minXp t <= x /\
        (forall t', In t' (base :: rest) -> minXp t' <= x ->
                    minXp t' <= minXp t) /\
        (forall t', In t' (base :: rest) -> minXp t' = minXp t -> t' = t)) /\
  (forall (base : Level) (rest : list Level) (x : Z),
      (forall t, In t (base :: rest) -> x < minXp t) ->
      getLevelIn (base :: rest) x = Some base) /\
  getLevelIn scenarioTable 1000 = Some {| rank := "D"; minXp := 1000 |} /\
  getLevelIn scenarioTable 999 = Some {| rank := "base"; minXp := 0 |} /\
  getLevel 1000 = Some {| rank := "D"; minXp := 1000 |} /\
  getLevel 999 = Some {| rank := "E"; minXp := 0 |}.
Proof.
  split; [|split; [exact getLevelIn_below | repeat split]].
  intros base rest x Hbase Hasc Hx.
  unfold getLevelIn.
  destruct (find _ (rev (base :: rest))) as [t|] eqn:E.
  - exists t. split; [reflexivity|].
    now apply getLevelIn_greatest.
  - exfalso. pose proof (find_rev_none _ _ E base (or_introl eq_refl)) as H.
    apply Z.leb_gt in H. lia.
Qed.

Lemma ascending_levels : ascending levels.
Proof.
  unfold ascending, levels.
  repeat (apply SSorted_cons; [| repeat (apply Forall_cons; [cbn; lia|]); apply Forall_nil]).
  apply SSorted_nil.
Qed.

(** The properties of C1 at the table of the program and 1700 XP. *)
Lemma getLevel_greatest_threshold_witness :
  exists t,
    getLevel 1700 = Some t /\ In t levels /\ minXp t <= 1700 /\
    (forall t', In t' levels -> minXp t' <= 1700 -> minXp t' <= minXp t) /\
    (forall t', In t' levels -> minXp t' = minXp t -> t' = t).
Proof.
  apply (proj1 getLevel_greatest_threshold
           {| rank := "E"; minXp := 0 |} (tl levels) 1700).
  - reflexivity.
  - exact ascending_levels.
  - lia.
Defined.

(** C10. The rank lookup of the program is total on all integer XP
    values: every call returns a tier of the table, and for an XP below
    every threshold (a negative one) the tier is the base tier, rank E
    with threshold 0. *)
Theorem getLevel_total (xp : Z) :
  (exists l, getLevel xp = Some l /\ In l levels) /\
  ((forall l, In l levels -> xp < minXp l) ->
   getLevel xp = Some {| rank := "E"; minXp := 0 |}) /\
  (xp < 0 -> getLevel xp = Some {| rank := "E"; minXp := 0 |}).
Proof.
  split; [apply getLevelIn_defined|].
  split; [apply getLevelIn_below|].
  intros H. apply getLevelIn_below.
  intros l Hl. cbn in Hl.
  repeat (destruct Hl as [<-|Hl]; [cbn; lia|]). destruct Hl.
Qed.

(** A negative XP value. *)
Lemma getLevel_total_witness :
  getLevel (-5) = Some {| rank := "E"; minXp := 0 |}.
Proof.
  apply (proj2 (proj2 (getLevel_total (-5)))). lia.
Defined.

End RankProps.

(** ** Streak: the rule on a logged activity and the login correction *)

Module StreakProps.
Import Streak.

(** A result of the write-path rule that differs from the state it was
    applied to has a streak of at least 1 and [D] as its last day. *)
Lemma applyStreak_change (s s' : State) (D : Z) :
  applyStreak s D = Some s' ->
  s' = s \/ ((1 <= streakCount s')%N /\ lastActivityDate s' = Some D).
Proof.
  unfold applyStreak. destruct (lastActivityDate s) as [last|].
  - destruct (D =? last); [intros [= <-]; now left|].
    destruct (D - last =? 1); [intros [= <-]; right; cbn; split; [lia|trivial]|].
    destruct (1 <? D - last); [|discriminate].
    intros [= <-]. right. cbn. split; [lia|trivial].
  - intros [= <-]. right. cbn. split; [lia|trivial].
Qed.

(** C5. The write-path streak transition on a new qualifying activity
    at day [D]: with no last activity day the streak becomes 1; on the
    last activity day itself nothing changes; one day after it the
    streak grows by 1; more than one day after it the streak is reset
    to 1, not to 0; and in each case but the same-day one the last
    activity day becomes [D]. *)
Theorem applyStreak_cases (s : State) (D : Z) :
  (lastActivityDate s = None ->
   applyStreak s D = Some {| streakCount := 1; lastActivityDate := Some D |}) /\
  (lastActivityDate s = Some D -> applyStreak s D = Some s) /\
  (forall last, lastActivityDate s = Some last -> D - last = 1 ->
     applyStreak s D =
       Some {| streakCount := streakCount s + 1; lastActivityDate := Some D |}) /\
  (forall last, lastActivityDate s = Some last -> 1 < D - last ->
     applyStreak s D = Some {| streakCount := 1; lastActivityDate := Some D |}) /\
  (forall s', applyStreak s D = Some s' -> lastActivityDate s <> Some D ->
     lastActivityDate s' = Some D /\ streakCount s' <> 0%N).
Proof.
  split; [|split; [|split; [|split]]].
  - unfold applyStreak. now intros ->.
  - unfold applyStreak. intros ->. now rewrite Z.eqb_refl.
  - unfold applyStreak. intros last -> H.
    destruct (Z.eqb_spec D last); [lia|].
    destruct (Z.eqb_spec (D - last) 1); [reflexivity|lia].
  - unfold applyStreak. intros last -> H.
    destruct (Z.eqb_spec D last); [lia|].
    destruct (Z.eqb_spec (D - last) 1); [lia|].
    destruct (Z.ltb_spec 1 (D - last)); [reflexivity|lia].
  - intros s' H Hne.
    destruct (applyStreak_change s s' D H) as [->|[H1 H2]].
    + exfalso. revert H Hne. unfold applyStreak.
      destruct s as [k [last|]]; cbn [lastActivityDate streakCount].
      * destruct (Z.eqb_spec D last); [congruence|].
        destruct (D - last =? 1); [congruence|].
        destruct (1 <? D - last); congruence.
      * discriminate.
    + split; [exact H2|lia].
Qed.

(** A streak of 3 whose last day is day 10, and an activity on day 11. *)
Lemma applyStreak_cases_witness :
  applyStreak {| streakCount := 3; lastActivityDate := Some 10 |} 11 =
    Some {| streakCount := 4; lastActivityDate := Some 11 |}.
Proof.
  apply (proj1 (proj2 (proj2
           (applyStreak_cases {| streakCount := 3; lastActivityDate := Some 10 |} 11)))
           10).
  - reflexivity.
  - reflexivity.
Defined.

(** Consecutive days: [n] activities on the [n] days after the last
    activity day take the streak from [k] to [k + n]. *)
Fixpoint logDays (s : State) (D : Z) (n : nat) : option State :=
  match n with
  | O => Some s
  | S n => match applyStreak s D with
           | Some s' => logDays s' (D + 1) n
           | None => None
           end
  end.

Lemma logDays_consecutive (n : nat) (k : N) (last : Z) :
  logDays {| streakCount := k; lastActivityDate := Some last |} (last + 1) n =
  Some {| streakCount := k + N.of_nat n;
          lastActivityDate := Some (last + Z.of_nat n) |}.
Proof.
  revert k last. induction n as [|n IH]; intros k last.
  - cbn [logDays]. f_equal. f_equal; [lia | f_equal; lia].
  - cbn [logDays]. unfold applyStreak. cbn [lastActivityDate streakCount].
    destruct (Z.eqb_spec (last + 1) last); [lia|].
    destruct (Z.eqb_spec (last + 1 - last) 1); [|lia].
    rewrite IH. f_equal. f_equal; [lia | f_equal; lia].
Qed.

End StreakProps.

Module LoginProps.
Import Auth.

Lemma diffDays_localDay (tz now d : Z) :
  (Date.setHours0 tz now - Date.setHours0 tz d) / Date.msPerDay =
  Date.localDay tz now - Date.localDay tz d.
Proof.
  unfold Date.setHours0.
  replace (Date.localDay tz now * Date.msPerDay - tz
           - (Date.localDay tz d * Date.msPerDay - tz))
    with ((Date.localDay tz now - Date.localDay tz d) * Date.msPerDay) by ring.
  apply Z.div_mul. discriminate.
Qed.



End LoginProps.

(** ** Weekly chart data *)

Module WeeklyProps.
Import Dashboard.

(** The sum of [calories] over all meal rows. *)
Definition mealCalories (ms : list MealRow) : Z :=
  fold_right (fun m acc => calories m + acc) 0 ms.

(** The weekday ([getDay]) of each meal row. *)
Definition mealDays (tz : Z) (ms : list MealRow) : list Z :=
  map (fun m => Date.getDay tz (m_date m)) ms.

(** Stats that hold the given meal rows and nothing else. *)
Definition statsOfMeals (ms : list MealRow) : option Stats :=
  Some {| today := None;
          weekly := Some {| meals := Some ms; workouts := None |} |}.

Section Buckets.
Variable tz : Z.

(** What the bucket of weekday [k] takes from the meal rows: the
    calories of the first row of that weekday. *)
Definition firstOn (k : Z) (ms : list MealRow) : Z :=
  or_default
    (option_map calories
       (find (fun m => Date.getDay tz (m_date m) =? k) ms)) 0.

Lemma firstOn_cons (k : Z) (m : MealRow) (rest : list MealRow) :
  firstOn k (m :: rest) =
  if Date.getDay tz (m_date m) =? k then calories m else firstOn k rest.
Proof.
  unfold firstOn. cbn [find].
  destruct (Date.getDay tz (m_date m) =? k); [|reflexivity].
  cbn. destruct (Z.eqb_spec (calories m) 0); congruence.
Qed.

Lemma firstOn_absent (k : Z) (ms : list MealRow) :
  ~ In k (mealDays tz ms) -> firstOn k ms = 0.
Proof.
  induction ms as [|m rest IH]; [reflexivity|].
  cbn [mealDays map In]. intros H. rewrite firstOn_cons.
  destruct (Z.eqb_spec (Date.getDay tz (m_date m)) k); [tauto|].
  apply IH. unfold mealDays. tauto.
Qed.

Lemma getDay_range (t : Z) : 0 <= Date.getDay tz t < 7.
Proof. unfold Date.getDay. apply Z.mod_pos_bound. lia. Qed.

(** With at most one row per weekday the seven buckets hold all the
    calories of the rows. *)
Lemma buckets_partition (ms : list MealRow) :
  NoDup (mealDays tz ms) ->
  firstOn 1 ms + firstOn 2 ms + firstOn 3 ms + firstOn 4 ms
  + firstOn 5 ms + firstOn 6 ms + firstOn 0 ms = mealCalories ms.
Proof.
  induction ms as [|m rest IH]; [reflexivity|].
  cbn [mealDays map mealCalories fold_right]. intros H.
  apply NoDup_cons_iff in H as [Hm Hrest].
  specialize (IH Hrest). fold (mealCalories rest). rewrite <- IH.
  pose proof (firstOn_absent _ _ Hm) as H0.
  rewrite !firstOn_cons.
  pose proof (getDay_range (m_date m)) as Hr.
  assert (Date.getDay tz (m_date m) = 0 \/ Date.getDay tz (m_date m) = 1 \/
          Date.getDay tz (m_date m) = 2 \/ Date.getDay tz (m_date m) = 3 \/
          Date.getDay tz (m_date m) = 4 \/ Date.getDay tz (m_date m) = 5 \/
          Date.getDay tz (m_date m) = 6) as Hk by lia.
  repeat destruct Hk as [Hk|Hk]; rewrite Hk in *; cbn [Z.eqb Pos.eqb]; lia.
Qed.

Lemma totalIntake_buckets (stats : option Stats) (ms : list MealRow) :
  weeklyMeals stats = Some ms ->
  totalIntake tz stats =
  firstOn 1 ms + firstOn 2 ms + firstOn 3 ms + firstOn 4 ms
  + firstOn 5 ms + firstOn 6 ms + firstOn 0 ms.
Proof.
  intros H. unfold totalIntake, weeklyChartData, weekDays.
  cbn [mapi_from fold_left]. unfold chartRow. cbn [intake].
  rewrite H. reflexivity.
Qed.
End Buckets.

(** Two meal rows of 1 January 1970 (UTC). *)
Definition sameDayMeals : list MealRow :=
  [ {| m_date := 0; calories := 100 |}; {| m_date := 3600000; calories := 200 |} ].

(** C7, as stated, fails: of two meal rows of one day the chart takes
    the first only, so the buckets sum to 100 and the rows to 300. *)
Lemma totalIntake_drops_same_day_rows :
  weeklyMeals (statsOfMeals sameDayMeals) = Some sameDayMeals /\
  mealDays 0 sameDayMeals = [4; 4] /\
  map intake (weeklyChartData 0 (statsOfMeals sameDayMeals)) =
    [0; 0; 0; 100; 0; 0; 0] /\
  totalIntake 0 (statsOfMeals sameDayMeals) = 100 /\
  mealCalories sameDayMeals = 300.
Proof. repeat split. Qed.

(** C7 (amended). The weekly chart has the seven buckets Mon..Sun, and
    the bucket of a weekday takes the first meal row of that weekday;
    so when no two meal rows fall on the same weekday, summing the
    per-day intake over the seven buckets equals summing the calories
    over all meal rows: no row is counted twice or dropped. *)
Theorem totalIntake_partition (tz : Z) (stats : option Stats) (ms : list MealRow) :
  weeklyMeals stats = Some ms ->
  NoDup (mealDays tz ms) ->
  map day (weeklyChartData tz stats) = weekDays /\
  map intake (weeklyChartData tz stats) =
    map (fun k => firstOn tz k ms) [1; 2; 3; 4; 5; 6; 0] /\
  totalIntake tz stats = mealCalories ms.
Proof.
  intros Hms Hdays. split; [reflexivity|]. split.
  - unfold weeklyChartData, weekDays. cbn [mapi_from map].
    unfold chartRow. cbn [intake]. rewrite Hms. reflexivity.
  - rewrite (totalIntake_buckets tz stats ms Hms).
    now apply buckets_partition.
Qed.

(** Meal rows of a Thursday, a Friday and a Sunday. *)
Definition threeDayMeals : list MealRow :=
  [ {| m_date := 0; calories := 100 |};
    {| m_date := 86400000; calories := 250 |};
    {| m_date := 3 * 86400000 + 5; calories := 40 |} ].

Lemma totalIntake_partition_witness :
  map day (weeklyChartData 0 (statsOfMeals threeDayMeals)) = weekDays /\
  map intake (weeklyChartData 0 (statsOfMeals threeDayMeals)) =
    map (fun k => firstOn 0 k threeDayMeals) [1; 2; 3; 4; 5; 6; 0] /\
  totalIntake 0 (statsOfMeals threeDayMeals) = mealCalories threeDayMeals.
Proof.
  apply (totalIntake_partition 0 (statsOfMeals threeDayMeals) threeDayMeals).
  - reflexivity.
  - repeat constructor; cbn; intuition discriminate.
Defined.

End WeeklyProps.

(** ** Insights *)

Module InsightProps.
Import Dashboard InsightSpec.

(** Names every [p || d] of the goal. *)
Ltac name_defaults :=
  match goal with
  | |- context [or_default ?p ?d] =>
      let x := fresh "x" in
      generalize (or_default p d); intros x
  end.

(** Decides the comparisons of the goal one after the other and closes
    the cases by computation or arithmetic. *)
Ltac split_insights :=
  repeat match goal with
    | |- context [?a <=? ?b] => destruct (Z.leb_spec a b)
    | |- context [?a <? ?b] => destruct (Z.ltb_spec a b)
    | |- context [?a =? ?b] => destruct (Z.eqb_spec a b)
    | |- context [match ?o with Some _ => _ | None => _ end] => destruct o
    end;
  cbn [andb app]; try reflexivity; try lia;
  repeat f_equal; lia.

(** The insights are the four categories one after the other, each
    from its own inputs. *)
Lemma getActivityInsights_categories
    (user : option User) (stats : option Stats) (totalWorkouts : Z) :
  0 <= todayBurnedOf stats ->
  getActivityInsights user stats totalWorkouts =
    goalProgress (dailyGoalOf user) (todayBurnedOf stats)
    ++ calorieBalance (todayIntakeOf stats) (todayBurnedOf stats)
    ++ weeklyConsistency totalWorkouts
    ++ streakInsight (streakOf user).
Proof.
  unfold getActivityInsights, push, goalProgress, calorieBalance,
    weeklyConsistency, streakInsight, dailyGoalOf, todayBurnedOf,
    todayIntakeOf, streakOf.
  destruct stats as [[[[tb tc]|] w]|], user as [[g cg st]|];
    cbn [today caloriesBurned caloriesConsumed dailyBurnGoal
         dailyCalorieGoal streak];
    repeat name_defaults; intros Hb; split_insights.
Qed.



End InsightProps.

(** ** Facts on binary64 Numbers *)

Module JSFacts.
Import JS.

(** *** Rounding to binary64 never produces NaN *)

Lemma shr_1_nonneg (mrs : shr_record) :
  0 <= shr_m mrs -> 0 <= shr_m (shr_1 mrs).
Proof.
  destruct mrs as [[|[p|p|]|p] r s]; cbn; lia.
Qed.

Lemma iter_shr_1_nonneg (p : positive) (mrs : shr_record) :
  0 <= shr_m mrs -> 0 <= shr_m (iter_pos shr_1 p mrs).
Proof.
  revert mrs. induction p as [p IH|p IH|]; intros mrs H; cbn [iter_pos].
  - apply IH, IH, shr_1_nonneg, H.
  - apply IH, IH, H.
  - apply shr_1_nonneg, H.
Qed.

Lemma shr_fexp_nonneg (m e : Z) (l : location) :
  0 <= m -> 0 <= shr_m (fst (shr_fexp prec emax m e l)).
Proof.
  intros H. unfold shr_fexp, shr.
  assert (0 <= shr_m (shr_record_of_loc m l)) as H0
      by (destruct l as [|[]]; exact H).
  destruct (fexp prec emax (Zdigits2 m + e) - e) as [|p|p]; cbn [fst]; trivial.
  now apply iter_shr_1_nonneg.
Qed.

Lemma round_nearest_even_nonneg (m : Z) (l : location) :
  0 <= m -> 0 <= round_nearest_even m l.
Proof.
  intros H. destruct l as [|[]]; cbn; trivial; [|lia].
  destruct (Z.even m); lia.
Qed.

Lemma binary_round_aux_not_nan (s : bool) (m e : Z) (l : location) :
  0 <= m -> binary_round_aux prec emax s m e l <> S754_nan.
Proof.
  intros H. unfold binary_round_aux.
  pose proof (shr_fexp_nonneg m e l H) as H1.
  destruct (shr_fexp prec emax m e l) as [mrs' e']. cbn [fst] in H1.
  pose proof (shr_fexp_nonneg _ e' loc_Exact
                (round_nearest_even_nonneg _ (loc_of_shr_record mrs') H1)) as H2.
  destruct (shr_fexp prec emax _ e' loc_Exact) as [mrs'' e'']. cbn [fst] in H2.
  destruct (shr_m mrs'') as [|p|p]; [discriminate| |lia].
  destruct (e'' <=? emax - prec); discriminate.
Qed.

Lemma binary_normalize_not_nan (m e : Z) (szero : bool) :
  binary_normalize prec emax m e szero <> S754_nan.
Proof.
  unfold binary_normalize, binary_round.
  destruct m as [|p|p]; [discriminate| |];
    destruct (shl_align _ _ _) as [mz ez];
    apply binary_round_aux_not_nan; lia.
Qed.

Lemma SFdiv_not_nan (x : spec_float) (s : bool) (m : positive) (e : Z) :
  x <> S754_nan -> SFdiv prec emax x (S754_finite s m e) <> S754_nan.
Proof.
  intros Hx. destruct x as [sx|sx| |sx mx ex]; cbn [SFdiv];
    [discriminate|discriminate|congruence|].
  unfold SFdiv_core_binary.
  set (e' := Z.min _ _). set (m' := match _ - e' with 0 => _ | _ => _ end).
  assert (0 <= m') as Hm'.
  { unfold m'. destruct (ex - e - e') as [|p|p]; [lia| |lia].
    apply Z.shiftl_nonneg. lia. }
  pose proof (Z.div_pos m' (Zpos m) Hm' eq_refl) as Hq.
  unfold Z.div in Hq.
  destruct (Z.div_eucl m' (Zpos m)) as [q r]. cbn [fst] in Hq.
  now apply binary_round_aux_not_nan.
Qed.

(** *** NaN and the comparisons *)

Lemma SFeqb_refl (x : spec_float) : x <> S754_nan -> SFeqb x x = true.
Proof.
  unfold SFeqb. destruct x as [s|[]| |[] m e]; cbn; try congruence;
    intros _; rewrite Z.compare_refl, Pos.compare_cont_refl; reflexivity.
Qed.

Lemma is_nan_false (x : float) :
  Prim2SF x <> S754_nan -> is_nan x = false.
Proof.
  intros H. unfold is_nan. rewrite eqb_spec, SFeqb_refl; trivial.
Qed.

Lemma leb_not_nan (a x : float) :
  (a <=? x)%float = true -> Prim2SF x <> S754_nan.
Proof.
  rewrite leb_spec. intros H E. rewrite E in H.
  unfold SFleb in H. destruct (Prim2SF a); discriminate.
Qed.

Lemma ltb_leb (a b : float) :
  (a <? b)%float = true -> (a <=? b)%float = true.
Proof.
  rewrite ltb_spec, leb_spec. unfold SFltb, SFleb.
  destruct (SFcompare _ _) as [[]|]; congruence.
Qed.

(** *** [Math.round] and [Math.max] *)

Lemma Math_round_examples :
  Math_round 2.5 = 3%float /\ Math_round (-2.5) = (-2)%float /\
  Math_round 0.49999999999999994 = 0%float /\
  Math_round (-0.5) = neg_zero /\ Math_round 540.0000000000001 = 540%float /\
  Math_round nan = nan /\ Math_round infinity = infinity /\
  Math_round 4503599627370495.5 = 4503599627370496%float.
Proof. repeat split. Qed.

(** [round_half_up num k] is within one half of [num / 2^k], the upper
    bound excluded. *)
Lemma round_half_up_nearest (num k : Z) :
  0 <= k ->
  (2 * round_half_up num k - 1) * 2 ^ k <= 2 * num
  < (2 * round_half_up num k + 1) * 2 ^ k.
Proof.
  intros Hk. unfold round_half_up.
  rewrite Z.pow_add_r, Z.pow_1_r by lia.
  pose proof (Z.pow_pos_nonneg 2 k eq_refl Hk) as Hp.
  pose proof (Z.div_mod (2 * num + 2 ^ k) (2 ^ k * 2) ltac:(lia)) as Hd.
  pose proof (Z.mod_pos_bound (2 * num + 2 ^ k) (2 ^ k * 2) ltac:(lia)) as Hm.
  nia.
Qed.

Lemma of_int_not_nan (s : bool) (n : Z) : Prim2SF (of_int s n) <> S754_nan.
Proof.
  unfold of_int. destruct (n =? 0); [destruct s; vm_compute; discriminate|].
  destruct (0 <? n).
  - rewrite of_uint63_spec. apply binary_normalize_not_nan.
  - rewrite opp_spec, of_uint63_spec.
    pose proof (binary_normalize_not_nan
                  (Uint63.to_Z (Uint63.of_Z (- n))) 0 false) as H.
    destruct (binary_normalize _ _ _ _ _); cbn; congruence.
Qed.

Lemma Math_round_not_nan (x : float) :
  Prim2SF x <> S754_nan -> Prim2SF (Math_round x) <> S754_nan.
Proof.
  intros H. unfold Math_round.
  destruct (Prim2SF x) as [s|s| |s m e] eqn:E; try (rewrite E; discriminate);
    [congruence|].
  destruct (0 <=? e); [rewrite E; discriminate|apply of_int_not_nan].
Qed.

(** The larger of [a] and a Number that is not NaN is at least [a]. *)
Lemma Math_max_lower_bound (a y : float) :
  (a <=? a)%float = true -> Prim2SF y <> S754_nan ->
  (a <=? Math_max a y)%float = true.
Proof.
  intros Ha Hy. unfold Math_max.
  rewrite (is_nan_false a (leb_not_nan a a Ha)), (is_nan_false y Hy).
  cbn [orb].
  destruct (a <? y)%float eqn:Hlt; [now apply ltb_leb|].
  destruct (y <? a)%float eqn:Hgt; [exact Ha|].
  destruct (is_neg_zero a) eqn:Hz; [|exact Ha].
  (* [a] is a zero and [y] compares equal to it *)
  revert Hlt Hgt Ha. rewrite !ltb_spec, !leb_spec.
  unfold SFltb, SFleb.
  assert (exists sa, Prim2SF a = S754_zero sa) as [sa ->].
  { unfold is_neg_zero, is_zero in Hz. apply andb_prop in Hz as [Hz _].
    rewrite eqb_spec in Hz. change (Prim2SF zero) with (S754_zero false) in Hz.
    unfold SFeqb in Hz.
    destruct (Prim2SF a) as [sa|[]| |[] m e]; try discriminate. now exists sa. }
  destruct (Prim2SF y) as [sy|[]| |[] m e]; cbn; congruence.
Qed.

End JSFacts.

(** ** Calorie estimate and XP reward *)


Module WorkoutProps.
Import Workout EstimateSpec.

Lemma intensityMod_factor (i : Intensity) :
  intensityMod (intensityName i) = intensityFactor i.
Proof. destruct i; reflexivity. Qed.

(** The workout of the duration scenario: running at 300 kcal per 30
    minutes, 45 minutes, high intensity. *)
Definition running : WorkoutType :=
  {| type := "running"; inputType := "time";
     caloriesPer30Min := Some 300%float; caloriesPerRep := None |}.

Definition runningForm : State :=
  {| user := Some {| weight := Some 70%float |};
     selectedType := Some running;
     duration := 45; reps := 20; sets := 3; intensity := "high" |}.

(** The workout of the count scenario: 0.3 kcal per rep, 3 sets of 20
    reps, moderate intensity, a user of 70 kg. *)
Definition pushups (perRep : JS.prop) : WorkoutType :=
  {| type := "pushups"; inputType := "count";
     caloriesPer30Min := None; caloriesPerRep := perRep |}.

Definition pushupsForm (perRep : JS.prop) : State :=
  {| user := Some {| weight := Some 70%float |};
     selectedType := Some (pushups perRep);
     duration := 30; reps := 20; sets := 3; intensity := "moderate" |}.



(** [user?.weight] *)
Definition weightOf (u : option User) : JS.prop :=
  match u with Some u => weight u | None => None end.

(** The count-mode estimate in full: the page falls back to 0.3 kcal
    per rep and to 70 kg where the type or the user has no (or a zero)
    value. *)
Lemma count_estimate_defaults (st : State) (ty : WorkoutType) (i : Intensity) :
  selectedType st = Some ty ->
  inputType ty = "count" ->
  intensity st = intensityName i ->
  calculateEstimatedCalories st =
    Return (estimateCount (JS.or_default (caloriesPerRep ty) 0.3)
              (reps st) (sets st) i
              (JS.or_default (weightOf (user st)) 70) 70).
Proof.
  intros Hty Hmode Hi.
  unfold calculateEstimatedCalories, estimateCount, userWeight, weightOf.
  rewrite Hty, Hmode, Hi, intensityMod_factor. reflexivity.
Qed.

(** C4, as stated, fails where the catalog gives 0 kcal per rep: the
    formula gives 0, the page estimates with 0.3 kcal per rep and
    gives 18. *)
Lemma count_estimate_zero_rate :
  calculateEstimatedCalories (pushupsForm (Some 0%float)) = Return 18 /\
  estimateCount 0 20 3 moderate 70 70 = 0%float.
Proof. split; reflexivity. Qed.

(** C4 (amended). A count-mode estimate is
    [caloriesPerRep * reps * sets * intensityFactor * (userWeightKg / 70)]
    rounded to the nearest integer, where [caloriesPerRep] is the
    catalog's value for the type if it has one other than 0, and 0.3
    otherwise, and [userWeightKg] is the user's weight if there is one
    other than 0, and 70 otherwise; at 0.3 kcal per rep, 3 sets of 20
    reps, moderate intensity and 70 kg it is 18, whether the repetitions
    are multiplied first or from left to right. *)
Theorem count_estimate (st : State) (ty : WorkoutType) (i : Intensity) :
  selectedType st = Some ty ->
  inputType ty = "count" ->
  intensity st = intensityName i ->
  calculateEstimatedCalories st =
    Return (estimateCount (JS.or_default (caloriesPerRep ty) 0.3)
              (reps st) (sets st) i
              (JS.or_default (weightOf (user st)) 70) 70) /\
  (forall perRep kg : float,
      caloriesPerRep ty = Some perRep -> JS.truthy perRep = true ->
      weightOf (user st) = Some kg -> JS.truthy kg = true ->
      calculateEstimatedCalories st =
        Return (estimateCount perRep (reps st) (sets st) i kg 70)) /\
  calculateEstimatedCalories (pushupsForm (Some 0.3%float)) = Return 18 /\
  estimateCount 0.3 20 3 moderate 70 70 = 18%float /\
  JS.Math_round (0.3 * 20 * 3 * 1 * (70 / 70)) = 18%float.
Proof.
  intros Hty Hmode Hi.
  split; [now apply count_estimate_defaults|].
  split; [|repeat split].
  intros perRep kg Hrep Hrep' Hkg Hkg'.
  rewrite (count_estimate_defaults st ty i Hty Hmode Hi), Hrep, Hkg.
  unfold JS.or_default. rewrite Hrep', Hkg'. reflexivity.
Qed.

Lemma count_estimate_witness :
  calculateEstimatedCalories (pushupsForm None) =
    Return (estimateCount 0.3 20 3 moderate 70 70) /\
  calculateEstimatedCalories (pushupsForm (Some 0.3%float)) =
    Return (estimateCount 0.3 20 3 moderate 70 70).
Proof.
  split.
  - apply (proj1 (count_estimate (pushupsForm None) (pushups None) moderate
                    eq_refl eq_refl eq_refl)).
  - apply (proj1 (proj2 (count_estimate (pushupsForm (Some 0.3%float))
                           (pushups (Some 0.3%float)) moderate
                           eq_refl eq_refl eq_refl)) 0.3%float 70%float);
      reflexivity.
Defined.

(** *** Errors *)

Lemma nan_mul (a : float) : (nan * a)%float = nan.
Proof. apply Prim2SF_inj. rewrite mul_spec. reflexivity. Qed.

(** A form with no workout type selected. *)
Definition emptyForm : State :=
  {| user := None; selectedType := None;
     duration := 30; reps := 20; sets := 3; intensity := "moderate" |}.




End WorkoutProps.

Module XpProps.
Import XpPreview EstimateSpec.

Lemma div_two_not_nan (c : float) :
  Prim2SF c <> S754_nan -> Prim2SF (c / 2) <> S754_nan.
Proof.
  intros H. rewrite div_spec.
  change (Prim2SF 2) with (S754_finite false 4503599627370496 (-51)).
  now apply JSFacts.SFdiv_not_nan.
Qed.

(** The preview of the form is the reward of the estimate it shows. *)
Lemma xpRewardPreview_reward (st : Workout.State) (c : float) :
  Workout.calculateEstimatedCalories st = Workout.Return c ->
  xpRewardPreview st = Workout.Return (computeXpReward 5 2 c).
Proof. unfold xpRewardPreview. now intros ->. Qed.



(** Rewards of some estimates: the floor below 10 kcal, halves rounded
    up above. *)
Lemma xpReward_examples :
  xpReward 0 = 5%float /\ xpReward 4 = 5%float /\ xpReward 9 = 5%float /\
  xpReward 11 = 6%float /\ xpReward 18 = 9%float /\ xpReward 540 = 270%float /\
  xpReward infinity = infinity.
Proof. repeat split. Qed.

End XpProps.

(** * Further properties of the code *)

(** ** Rank lookup *)

Module RankMore.
Import User RankProps.

Lemma ascending_head_least (base : Level) (rest : list Level) (t : Level) :
  ascending (base :: rest) -> In t (base :: rest) -> minXp base <= minXp t.
Proof.
  intros H [<-|Ht]; [lia|].
  destruct (ascending_middle [] rest base H) as [_ H2].
  apply H2 in Ht. lia.
Qed.

(** X1. More XP never gives a lower tier: over an ascending table, the
    tier of a smaller XP value has a threshold at most that of the
    tier of a greater one. *)
Theorem getLevelIn_monotone (levels : list Level) (x y : Z) (t t' : Level) :
  ascending levels -> x <= y ->
  getLevelIn levels x = Some t -> getLevelIn levels y = Some t' ->
  minXp t <= minXp t'.
Proof.
  intros Hasc Hxy. unfold getLevelIn.
  destruct (find _ (rev levels)) as [tx|] eqn:Ex.
  - intros [= ->].
    destruct (getLevelIn_greatest levels x t Hasc Ex) as (Hin & Hle & _).
    destruct (find (fun l => minXp l <=? y) (rev levels)) as [ty|] eqn:Ey.
    + intros [= ->].
      destruct (getLevelIn_greatest levels y t' Hasc Ey) as (_ & _ & Hmax & _).
      apply Hmax; [exact Hin|lia].
    + pose proof (find_rev_none _ _ Ey t Hin) as H.
      apply Z.leb_gt in H. lia.
  - destruct levels as [|base rest]; [discriminate|].
    intros [= ->].
    destruct (find (fun l => minXp l <=? y) (rev (t :: rest))) as [ty|] eqn:Ey.
    + intros [= ->].
      destruct (getLevelIn_greatest _ y t' Hasc Ey) as (Hin & _).
      now apply (ascending_head_least t rest).
    + intros [= ->]. lia.
Qed.

(** The ranks of 1700 XP and of 30000 XP. *)
Lemma getLevelIn_monotone_witness :
  minXp {| rank := "D"; minXp := 1000 |} <= minXp {| rank := "S"; minXp := 20000 |}.
Proof.
  apply (getLevelIn_monotone levels 1700 30000).
  - exact ascending_levels.
  - lia.
  - reflexivity.
  - reflexivity.
Defined.

(** X2. Every tier of an ascending table is reached exactly at its
    threshold. *)
Theorem getLevelIn_at_threshold (levels : list Level) (l : Level) :
  ascending levels -> In l levels ->
  getLevelIn levels (minXp l) = Some l.
Proof.
  intros Hasc Hin. unfold getLevelIn.
  destruct (find _ (rev levels)) as [t|] eqn:E.
  - destruct (getLevelIn_greatest levels (minXp l) t Hasc E)
      as (Ht & Hle & Hmax & Huniq).
    f_equal. symmetry. apply Huniq; [exact Hin|].
    specialize (Hmax l Hin ltac:(lia)). lia.
  - pose proof (find_rev_none _ _ E l Hin) as H.
    apply Z.leb_gt in H. lia.
Qed.

Lemma getLevelIn_at_threshold_witness :
  getLevelIn levels 5000 = Some {| rank := "B"; minXp := 5000 |}.
Proof.
  apply (getLevelIn_at_threshold levels {| rank := "B"; minXp := 5000 |}).
  - exact ascending_levels.
  - cbn. tauto.
Defined.

(** The rank of [getLevel], ["?"] if there is none. *)
Definition rankOf (xp : Z) : string :=
  match getLevel xp with Some l => rank l | None => "?" end.

(** X3. The XP ranges of the ranks of the program: E below 1000, D from
    1000, C from 2500, B from 5000, A from 10000, S from 20000 and
    NATIONAL from 50000 XP. *)
Theorem getLevel_ranges (xp : Z) :
  (rankOf xp = "E" <-> xp < 1000) /\
  (rankOf xp = "D" <-> 1000 <= xp < 2500) /\
  (rankOf xp = "C" <-> 2500 <= xp < 5000) /\
  (rankOf xp = "B" <-> 5000 <= xp < 10000) /\
  (rankOf xp = "A" <-> 10000 <= xp < 20000) /\
  (rankOf xp = "S" <-> 20000 <= xp < 50000) /\
  (rankOf xp = "NATIONAL" <-> 50000 <= xp).
Proof.
  unfold rankOf, getLevel, getLevelIn, levels. cbn [rev app find minXp].
  destruct (Z.leb_spec 50000 xp); [cbn; repeat split; (discriminate || lia || trivial)|].
  destruct (Z.leb_spec 20000 xp); [cbn; repeat split; (discriminate || lia || trivial)|].
  destruct (Z.leb_spec 10000 xp); [cbn; repeat split; (discriminate || lia || trivial)|].
  destruct (Z.leb_spec 5000 xp); [cbn; repeat split; (discriminate || lia || trivial)|].
  destruct (Z.leb_spec 2500 xp); [cbn; repeat split; (discriminate || lia || trivial)|].
  destruct (Z.leb_spec 1000 xp); [cbn; repeat split; (discriminate || lia || trivial)|].
  destruct (Z.leb_spec 0 xp); cbn; repeat split; (discriminate || lia || trivial).
Qed.

End RankMore.

(** ** Login *)

Module LoginMore.
Import Auth.

Lemma localDay_mono (tz a b : Z) : a <= b -> Date.localDay tz a <= Date.localDay tz b.
Proof.
  intros H. unfold Date.localDay. apply Z.div_le_mono; [reflexivity|lia].
Qed.

(** The login correction by the calendar days between the last workout
    and the login. *)
Lemma loginStreak_by_days (tz now : Z) (user : User) :
  loginStreak tz now user =
  match lastWorkoutDate user with
  | Some d =>
      if 1 <? Date.localDay tz now - Date.localDay tz d
      then {| streak := 0; lastWorkoutDate := lastWorkoutDate user |}
      else user
  | None => user
  end.
Proof.
  unfold loginStreak. destruct (lastWorkoutDate user) as [d|]; [|reflexivity].
  now rewrite LoginProps.diffDays_localDay.
Qed.

(** X4. A login does not change what a later login does: logging in at
    [now1] and then at [now2 >= now1] leaves the user as logging in at
    [now2] alone does; in particular logging in twice at one instant is
    logging in once. *)
Theorem loginStreak_later (tz now1 now2 : Z) (user : User) :
  now1 <= now2 ->
  loginStreak tz now2 (loginStreak tz now1 user) = loginStreak tz now2 user.
Proof.
  intros H. rewrite !loginStreak_by_days.
  destruct user as [s [d|]]; cbn [lastWorkoutDate]; [|reflexivity].
  pose proof (localDay_mono tz now1 now2 H) as Hm.
  destruct (Z.ltb_spec 1 (Date.localDay tz now1 - Date.localDay tz d));
    cbn [lastWorkoutDate]; [|reflexivity].
  destruct (Z.ltb_spec 1 (Date.localDay tz now2 - Date.localDay tz d)); [reflexivity|lia].
Qed.

(** Logins on 4 and on 9 January 1970 after a workout on 1 January. *)
Lemma loginStreak_later_witness :
  loginStreak 0 (8 * Date.msPerDay)
    (loginStreak 0 (3 * Date.msPerDay) {| streak := 4; lastWorkoutDate := Some 0 |}) =
  loginStreak 0 (8 * Date.msPerDay) {| streak := 4; lastWorkoutDate := Some 0 |}.
Proof.
  apply (loginStreak_later 0 (3 * Date.msPerDay) (8 * Date.msPerDay)).
  vm_compute. discriminate.
Defined.



End LoginMore.

(** ** Weekly chart data *)

Module WeeklyMore.
Import Dashboard DashboardTotals.

(** *** Rows bucketed by weekday *)

Section Rows.
Context {A : Type} (weekday : A -> Z) (value : A -> Z).
Hypothesis weekday_range : forall a, 0 <= weekday a < 7.

(** What the bucket of weekday [k] takes: the value of the first row of
    that weekday, 0 without one. *)
Definition pick (k : Z) (rows : list A) : Z :=
  or_default (option_map value (find (fun a => weekday a =? k) rows)) 0.

Definition total (rows : list A) : Z :=
  fold_right (fun a acc => value a + acc) 0 rows.

Definition picks (rows : list A) : Z :=
  pick 1 rows + pick 2 rows + pick 3 rows + pick 4 rows
  + pick 5 rows + pick 6 rows + pick 0 rows.

Lemma pick_cons (k : Z) (a : A) (rows : list A) :
  pick k (a :: rows) = if weekday a =? k then value a else pick k rows.
Proof.
  unfold pick. cbn [find]. destruct (weekday a =? k); [|reflexivity].
  cbn. destruct (Z.eqb_spec (value a) 0); congruence.
Qed.

Lemma pick_absent (k : Z) (rows : list A) :
  ~ In k (map weekday rows) -> pick k rows = 0.
Proof.
  induction rows as [|a rows IH]; [reflexivity|].
  cbn [map In]. intros H. rewrite pick_cons.
  destruct (Z.eqb_spec (weekday a) k); [tauto|]. apply IH. tauto.
Qed.

Lemma pick_nonneg (k : Z) (rows : list A) :
  (forall a, In a rows -> 0 <= value a) -> 0 <= pick k rows.
Proof.
  induction rows as [|a rows IH]; intros H; [reflexivity|].
  rewrite pick_cons. destruct (weekday a =? k).
  - apply H. now left.
  - apply IH. intros b Hb. apply H. now right.
Qed.

Lemma weekday_cases (a : A) :
  weekday a = 0 \/ weekday a = 1 \/ weekday a = 2 \/ weekday a = 3 \/
  weekday a = 4 \/ weekday a = 5 \/ weekday a = 6.
Proof. pose proof (weekday_range a). lia. Qed.

Lemma picks_distinct_days (rows : list A) :
  NoDup (map weekday rows) -> picks rows = total rows.
Proof.
  induction rows as [|a rows IH]; [reflexivity|].
  cbn [map total fold_right]. intros H.
  apply NoDup_cons_iff in H as [Ha Hrows].
  specialize (IH Hrows). fold (total rows). rewrite <- IH.
  pose proof (pick_absent _ _ Ha) as H0.
  unfold picks. rewrite !pick_cons.
  destruct (weekday_cases a) as [Hk|[Hk|[Hk|[Hk|[Hk|[Hk|Hk]]]]]];
    rewrite Hk in *; cbn [Z.eqb Pos.eqb]; lia.
Qed.

Lemma picks_at_most_total (rows : list A) :
  (forall a, In a rows -> 0 <= value a) -> 0 <= picks rows <= total rows.
Proof.
  induction rows as [|a rows IH]; intros H; [cbn; lia|].
  assert (forall b, In b rows -> 0 <= value b) as Hrows
      by (intros b Hb; apply H; now right).
  specialize (IH Hrows). pose proof (H a (or_introl eq_refl)) as Ha.
  cbn [total fold_right]. fold (total rows).
  pose proof (fun k => pick_nonneg k rows Hrows) as Hp.
  pose proof (Hp 0); pose proof (Hp 1); pose proof (Hp 2); pose proof (Hp 3);
    pose proof (Hp 4); pose proof (Hp 5); pose proof (Hp 6).
  unfold picks in *. rewrite !pick_cons.
  destruct (weekday_cases a) as [Hk|[Hk|[Hk|[Hk|[Hk|[Hk|Hk]]]]]];
    rewrite Hk in *; cbn [Z.eqb Pos.eqb]; lia.
Qed.
End Rows.

(** *** The rows of the chart *)

Section Chart.
Variable tz : Z.
Variable stats : option Stats.

Definition mealDay (m : MealRow) : Z := Date.getDay tz (m_date m).
Definition workoutDay (w : WorkoutRow) : Z := Date.getDay tz (w_date w).

Lemma mealDay_range (m : MealRow) : 0 <= mealDay m < 7.
Proof. unfold mealDay, Date.getDay. apply Z.mod_pos_bound. lia. Qed.

Lemma workoutDay_range (w : WorkoutRow) : 0 <= workoutDay w < 7.
Proof. unfold workoutDay, Date.getDay. apply Z.mod_pos_bound. lia. Qed.

(** The values of the row of index [index], by the rows of the stats. *)
Definition ofMeals (value : MealRow -> Z) (index : Z) : Z :=
  match weeklyMeals stats with
  | Some ms => pick mealDay value ((index + 1) mod 7) ms
  | None => 0
  end.

Definition ofWorkouts (value : WorkoutRow -> Z) (index : Z) : Z :=
  match weeklyWorkouts stats with
  | Some ws => pick workoutDay value ((index + 1) mod 7) ws
  | None => 0
  end.

Lemma chartRow_fields (label : string) (index : Z) :
  chartRow tz stats label index =
  {| day := label;
     intake := ofMeals calories index;
     burned := ofWorkouts totalCalories index;
     net := ofMeals calories index - ofWorkouts totalCalories index;
     workoutCount := ofWorkouts count index;
     duration := ofWorkouts totalDuration index |}.
Proof.
  unfold chartRow, ofMeals, ofWorkouts, pick, mealDay, workoutDay.
  destruct (weeklyMeals stats), (weeklyWorkouts stats); reflexivity.
Qed.

Lemma weeklyChartData_rows :
  weeklyChartData tz stats =
  map (fun li => chartRow tz stats (fst li) (snd li))
    [("Mon", 0); ("Tue", 1); ("Wed", 2); ("Thu", 3);
     ("Fri", 4); ("Sat", 5); ("Sun", 6)].
Proof. reflexivity. Qed.
End Chart.

Section Totals.
Variable tz : Z.
Variable stats : option Stats.

Lemma totalIntake_picks :
  totalIntake tz stats =
  match weeklyMeals stats with
  | Some ms => picks (mealDay tz) calories ms
  | None => 0
  end.
Proof.
  unfold totalIntake. rewrite weeklyChartData_rows.
  cbn [map fold_left fst snd]. rewrite !chartRow_fields. cbn [intake].
  unfold ofMeals, picks. destruct (weeklyMeals stats); reflexivity.
Qed.

Lemma totalBurned_picks :
  totalBurned tz stats =
  match weeklyWorkouts stats with
  | Some ws => picks (workoutDay tz) totalCalories ws
  | None => 0
  end.
Proof.
  unfold totalBurned. rewrite weeklyChartData_rows.
  cbn [map fold_left fst snd]. rewrite !chartRow_fields. cbn [burned].
  unfold ofWorkouts, picks. destruct (weeklyWorkouts stats); reflexivity.
Qed.

Lemma totalWorkouts_picks :
  totalWorkouts tz stats =
  match weeklyWorkouts stats with
  | Some ws => picks (workoutDay tz) count ws
  | None => 0
  end.
Proof.
  unfold totalWorkouts. rewrite weeklyChartData_rows.
  cbn [map fold_left fst snd]. rewrite !chartRow_fields. cbn [workoutCount].
  unfold ofWorkouts, picks. destruct (weeklyWorkouts stats); reflexivity.
Qed.

Lemma totalDuration_picks :
  totalDuration' tz stats =
  match weeklyWorkouts stats with
  | Some ws => picks (workoutDay tz) totalDuration ws
  | None => 0
  end.
Proof.
  unfold totalDuration'. rewrite weeklyChartData_rows.
  cbn [map fold_left fst snd]. rewrite !chartRow_fields. cbn [duration].
  unfold ofWorkouts, picks. destruct (weeklyWorkouts stats); reflexivity.
Qed.
End Totals.

(** X6. When no two workout rows of the week fall on the same weekday,
    the weekly totals of the chart are the sums over all workout rows:
    calories burned, number of workouts and minutes. *)
Theorem workout_totals_partition (tz : Z) (stats : option Stats)
    (ws : list WorkoutRow) :
  weeklyWorkouts stats = Some ws ->
  NoDup (map (workoutDay tz) ws) ->
  totalBurned tz stats = total totalCalories ws /\
  totalWorkouts tz stats = total count ws /\
  totalDuration' tz stats = total totalDuration ws.
Proof.
  intros Hws Hdays.
  rewrite totalBurned_picks, totalWorkouts_picks, totalDuration_picks, Hws.
  repeat split; apply picks_distinct_days; trivial; apply workoutDay_range.
Qed.

(** Workout rows of a Thursday and of a Saturday. *)
Definition twoDayWorkouts : list WorkoutRow :=
  [ {| w_date := 0; totalCalories := 300; count := 2; totalDuration := 50 |};
    {| w_date := 2 * 86400000; totalCalories := 120; count := 1; totalDuration := 20 |} ].

Definition statsOfWorkouts (ws : list WorkoutRow) : option Stats :=
  Some {| today := None;
          weekly := Some {| meals := None; workouts := Some ws |} |}.

Lemma workout_totals_partition_witness :
  totalBurned 0 (statsOfWorkouts twoDayWorkouts) = total totalCalories twoDayWorkouts /\
  totalWorkouts 0 (statsOfWorkouts twoDayWorkouts) = total count twoDayWorkouts /\
  totalDuration' 0 (statsOfWorkouts twoDayWorkouts) = total totalDuration twoDayWorkouts.
Proof.
  apply (workout_totals_partition 0 (statsOfWorkouts twoDayWorkouts) twoDayWorkouts).
  - reflexivity.
  - repeat constructor; cbn; intuition discriminate.
Defined.

(** X7. Whatever rows the stats hold, the chart never counts a row
    twice: with calories that are not negative, the weekly intake is at
    most the sum over all meal rows and the weekly burn at most the sum
    over all workout rows, and neither is negative. *)
Theorem weekly_totals_at_most_rows (tz : Z) (stats : option Stats)
    (ms : list MealRow) (ws : list WorkoutRow) :
  weeklyMeals stats = Some ms ->
  weeklyWorkouts stats = Some ws ->
  (forall m, In m ms -> 0 <= calories m) ->
  (forall w, In w ws -> 0 <= totalCalories w) ->
  0 <= totalIntake tz stats <= total calories ms /\
  0 <= totalBurned tz stats <= total totalCalories ws.
Proof.
  intros Hms Hws Hm Hw.
  rewrite totalIntake_picks, totalBurned_picks, Hms, Hws. split.
  - apply picks_at_most_total; [apply mealDay_range|exact Hm].
  - apply picks_at_most_total; [apply workoutDay_range|exact Hw].
Qed.

(** Two meal rows of one day, and no workout row. *)
Definition twoMealsOfADay : list MealRow :=
  [ {| m_date := 0; calories := 100 |}; {| m_date := 7200000; calories := 250 |} ].

Definition statsOfRows (ms : list MealRow) (ws : list WorkoutRow) : option Stats :=
  Some {| today := None;
          weekly := Some {| meals := Some ms; workouts := Some ws |} |}.

Lemma weekly_totals_at_most_rows_witness :
  0 <= totalIntake 0 (statsOfRows twoMealsOfADay [])
    <= total calories twoMealsOfADay /\
  0 <= totalBurned 0 (statsOfRows twoMealsOfADay [])
    <= total totalCalories [].
Proof.
  apply (weekly_totals_at_most_rows 0 (statsOfRows twoMealsOfADay [])
           twoMealsOfADay []).
  - reflexivity.
  - reflexivity.
  - intros m [<-|[<-|[]]]; cbn; lia.
  - intros w [].
Defined.

(** A row of the chart with nothing in it. *)
Definition emptyRow (label : string) : ChartRow :=
  {| day := label; intake := 0; burned := 0; net := 0;
     workoutCount := 0; duration := 0 |}.

(** X8. A day without rows gives zeros: the row of the chart for a
    weekday on which the stats have no meal row and no workout row is
    all zero under its label; and before the stats have arrived the
    chart has its seven rows Mon..Sun, all zero, and all totals are
    0. *)
Theorem chart_rows_without_data :
  (forall (tz : Z) (stats : option Stats) (label : string) (index : Z),
      (forall ms, weeklyMeals stats = Some ms ->
                  ~ In ((index + 1) mod 7) (map (mealDay tz) ms)) ->
      (forall ws, weeklyWorkouts stats = Some ws ->
                  ~ In ((index + 1) mod 7) (map (workoutDay tz) ws)) ->
      chartRow tz stats label index = emptyRow label) /\
  (forall tz : Z,
      weeklyChartData tz None = map emptyRow weekDays /\
      totalIntake tz None = 0 /\ totalBurned tz None = 0 /\
      totalWorkouts tz None = 0 /\ totalDuration' tz None = 0 /\
      netWeekly tz None = 0).
Proof.
  split.
  - intros tz stats label index Hm Hw. rewrite chartRow_fields.
    unfold ofMeals, ofWorkouts, emptyRow.
    destruct (weeklyMeals stats) as [ms|], (weeklyWorkouts stats) as [ws|];
      rewrite ?(pick_absent _ _ _ _ (Hm _ eq_refl)),
              ?(pick_absent _ _ _ _ (Hw _ eq_refl)); reflexivity.
  - intros tz. repeat split.
Qed.

(** The Monday row of stats whose only meal row is of a Thursday. *)
Lemma chart_rows_without_data_witness :
  chartRow 0 (statsOfRows [ {| m_date := 0; calories := 100 |} ] [])
    "Mon" 0 = emptyRow "Mon".
Proof.
  apply (proj1 chart_rows_without_data).
  - intros ms [= <-]. cbn. intuition discriminate.
  - intros ws [= <-]. intros [].
Defined.

(** X9. Each row of the chart has [net = intake - burned], and the
    weekly net is the sum of the nets of the seven rows. *)
Theorem netWeekly_sum_of_rows (tz : Z) (stats : option Stats) :
  List.length (weeklyChartData tz stats) = 7%nat /\
  (forall r, In r (weeklyChartData tz stats) -> net r = intake r - burned r) /\
  netWeekly tz stats =
    fold_left (fun sum d => sum + net d) (weeklyChartData tz stats) 0.
Proof.
  split; [reflexivity|]. split.
  - rewrite weeklyChartData_rows. cbn [map fst snd]. intros r Hr.
    repeat (destruct Hr as [<-|Hr]; [rewrite chartRow_fields; reflexivity|]).
    destruct Hr.
  - unfold netWeekly, totalIntake, totalBurned. rewrite weeklyChartData_rows.
    cbn [map fold_left fst snd]. rewrite !chartRow_fields. cbn [intake burned net].
    ring.
Qed.

End WeeklyMore.

(** ** Insights *)

Module InsightMore.
Import Dashboard InsightSpec.

(** The body of [getActivityInsights] on the values it reads. *)
Definition insightsOf (dailyGoal todayBurned todayIntake totalWorkouts : Z)
    (streak : option Z) : list Insight :=
  let insights := [] in
  let insights :=
    if dailyGoal <=? todayBurned then
      push insights {| type := "success"; text := GoalCrushed todayBurned |}
    else if 0 <? todayBurned then
      push insights {| type := "info"; text := KeepGoing (dailyGoal - todayBurned) |}
    else
      push insights {| type := "warning"; text := NoWorkoutToday |} in
  let insights :=
    if (0 <? todayIntake) && (0 <? todayBurned) then
      let balance := todayIntake - todayBurned in
      if 500 <? balance then
        push insights {| type := "warning"; text := CalorieSurplus balance |}
      else if balance <? -300 then
        push insights {| type := "success"; text := GreatDeficit (Z.abs balance) |}
      else insights
    else insights in
  let insights :=
    if 5 <=? totalWorkouts then
      push insights {| type := "success"; text := ExcellentWeek totalWorkouts |}
    else if 3 <=? totalWorkouts then
      push insights {| type := "info"; text := GoodWeek totalWorkouts |}
    else insights in
  match streak with
  | Some n =>
      if 7 <=? n then push insights {| type := "success"; text := DayStreak n |}
      else insights
  | None => insights
  end.

Lemma getActivityInsights_values
    (user : option User) (stats : option Stats) (totalWorkouts : Z) :
  getActivityInsights user stats totalWorkouts =
  insightsOf (dailyGoalOf user) (todayBurnedOf stats) (todayIntakeOf stats)
    totalWorkouts (streakOf user).
Proof.
  destruct stats as [[[[tb tc]|] w]|], user as [[g cg st]|]; reflexivity.
Qed.

(** The category of an insight, by its text. *)
Definition category (i : Insight) : nat :=
  match text i with
  | GoalCrushed _ | KeepGoing _ | NoWorkoutToday => 1
  | CalorieSurplus _ | GreatDeficit _ => 2
  | ExcellentWeek _ | GoodWeek _ => 3
  | DayStreak _ => 4
  end.

(** Decides the comparisons of [insightsOf]. *)
Ltac decide_insights :=
  unfold insightsOf, push;
  repeat match goal with
    | |- context [?a <=? ?b] => destruct (Z.leb_spec a b)
    | |- context [?a <? ?b] => destruct (Z.ltb_spec a b)
    | |- context [match ?o with Some _ => _ | None => _ end] => destruct o
    end;
  cbn [andb app].

(** X10. The dashboard always has an insight to show: the list starts
    with the insight on today's progress, holds at most one insight of
    each of the four categories, in the order progress, balance, week,
    streak, and so has between 1 and 4 entries. *)
Theorem insights_shape (user : option User) (stats : option Stats)
    (totalWorkouts : Z) :
  (exists first rest,
      getActivityInsights user stats totalWorkouts = first :: rest /\
      category first = 1%nat) /\
  StronglySorted lt (map category (getActivityInsights user stats totalWorkouts)) /\
  (1 <= List.length (getActivityInsights user stats totalWorkouts) <= 4)%nat.
Proof.
  rewrite getActivityInsights_values.
  generalize (dailyGoalOf user), (todayBurnedOf stats), (todayIntakeOf stats),
    (streakOf user).
  intros goal burned intake streak.
  decide_insights;
    (split; [eexists; eexists; split; reflexivity|];
     split; [repeat constructor|cbn; lia]).
Qed.

(** What an insight says is true of the values it was made from. *)
Definition sound (goal burned intake workouts : Z) (streak : option Z)
    (i : Insight) : Prop :=
  match text i with
  | GoalCrushed b => type i = "success" /\ b = burned /\ goal <= burned
  | KeepGoing remaining =>
      type i = "info" /\ remaining = goal - burned /\ 0 < remaining < goal
  | NoWorkoutToday => type i = "warning" /\ burned <= 0 /\ burned < goal
  | CalorieSurplus balance =>
      type i = "warning" /\ balance = intake - burned /\ 500 < balance /\
      0 < burned
  | GreatDeficit deficit =>
      type i = "success" /\ deficit = burned - intake /\ 300 < deficit /\
      0 < intake
  | ExcellentWeek n => type i = "success" /\ n = workouts /\ 5 <= n
  | GoodWeek n => type i = "info" /\ n = workouts /\ (n = 3 \/ n = 4)
  | DayStreak n => type i = "success" /\ streak = Some n /\ 7 <= n
  end.

(** X11. Every insight shown is true of the data: the goal is reached
    when it says so; the remaining amount is positive and below the
    goal; the no-workout warning comes only with nothing burned; a
    surplus shown is above 500 and a deficit above 300, and both only
    with something burned and eaten; the week insights carry the number
    of workouts, 5 or more, or 3 or 4; the streak shown is the user's
    and at least 7; and each text has its own type. *)
Theorem insights_sound (user : option User) (stats : option Stats)
    (totalWorkouts : Z) :
  Forall (sound (dailyGoalOf user) (todayBurnedOf stats) (todayIntakeOf stats)
            totalWorkouts (streakOf user))
    (getActivityInsights user stats totalWorkouts).
Proof.
  rewrite getActivityInsights_values.
  generalize (dailyGoalOf user), (todayBurnedOf stats), (todayIntakeOf stats),
    (streakOf user).
  intros goal burned intake streak.
  decide_insights;
    repeat (apply Forall_cons; [unfold sound; cbn [text type]; repeat split; lia|]);
    apply Forall_nil.
Qed.

End InsightMore.

(** ** The authentication middleware *)

Module MiddlewareProps.
Import Middleware.

(** A string without a space. *)
Fixpoint no_space (s : string) : bool :=
  match s with
  | EmptyString => true
  | String c rest => negb (Ascii.eqb c space) && no_space rest
  end.

Definition noToken : string :=
  "Not authorized to access this route. No token provided.".

Lemma split_no_space (s : string) :
  no_space s = true -> split space s = [s].
Proof.
  induction s as [|c s IH]; [reflexivity|].
  cbn [no_space split]. intros H. apply andb_prop in H as [Hc Hs].
  apply negb_true_iff in Hc. rewrite Hc, (IH Hs). reflexivity.
Qed.

Lemma split_piece (a b : string) :
  no_space a = true ->
  split space (a ++ String space b)%string = a :: split space b.
Proof.
  induction a as [|c a IH]; [reflexivity|].
  cbn [no_space split String.append]. intros H. apply andb_prop in H as [Hc Ha].
  apply negb_true_iff in Hc. rewrite Hc, (IH Ha). reflexivity.
Qed.

Lemma no_space_append (a b : string) :
  no_space a = true -> no_space b = true -> no_space (a ++ b)%string = true.
Proof.
  induction a as [|c a IH]; [trivial|].
  cbn [no_space String.append]. intros H Hb. apply andb_prop in H as [Hc Ha].
  now rewrite Hc, (IH Ha Hb).
Qed.

Lemma bearer_header (x : string) :
  negb (String.eqb ("Bearer" ++ x)%string "") &&
  String.prefix "Bearer" ("Bearer" ++ x)%string = true.
Proof. destruct x; reflexivity. Qed.

(** X12. The token read from an Authorization header is what stands
    between its first and its second space: for a header made of
    [Bearer], directly followed by any characters but a space, a space
    and a token without spaces, the token is returned, and so it is
    when a space and more follow the token. *)
Theorem token_of_bearer_header (suffix t more : string) :
  no_space suffix = true -> no_space t = true ->
  token (Some ("Bearer" ++ suffix ++ String space t)%string) = Some t /\
  token (Some ("Bearer" ++ suffix ++ String space (t ++ String space more))%string)
    = Some t.
Proof.
  intros Hs Ht. unfold token. rewrite !bearer_header.
  assert (no_space ("Bearer" ++ suffix)%string = true) as Hb
      by (apply no_space_append; [reflexivity|exact Hs]).
  change ("Bearer" ++ suffix ++ String space t)%string
    with (("Bearer" ++ suffix) ++ String space t)%string.
  change ("Bearer" ++ suffix ++ String space (t ++ String space more))%string
    with (("Bearer" ++ suffix) ++ String space (t ++ String space more))%string.
  rewrite !split_piece, split_no_space by assumption. split; reflexivity.
Qed.

Lemma token_of_bearer_header_witness :
  token (Some "Bearer abc.def.ghi") = Some "abc.def.ghi" /\
  token (Some "Bearer abc.def.ghi and more") = Some "abc.def.ghi".
Proof.
  apply (token_of_bearer_header "" "abc.def.ghi" "and more"); reflexivity.
Defined.

Section Protect.
Variable U : Type.
Variable verify : string -> Verified.
Variable findById : string -> Lookup U.

(** X13. The middleware lets a request through only with a token that
    was read from the header, is not empty, was verified, and whose
    [id] is that of a user found; that user is then [req.user]. *)
Theorem protect_next_only_verified (authorization : option string) (u : U) :
  protect U verify findById authorization = Next u ->
  exists t id,
    token authorization = Some t /\ t <> "" /\
    verify t = Decoded id /\ findById id = Found u.
Proof.
  unfold protect. destruct (token authorization) as [t|]; [|discriminate].
  destruct (String.eqb_spec t ""); [discriminate|].
  destruct (verify t) as [id|name] eqn:Hv; [|discriminate].
  destruct (findById id) as [u'| |name] eqn:Hf; try discriminate.
  intros [= ->]. now exists t, id.
Qed.

(** X14. Without a header, with a header that does not start with
    [Bearer], with one that has no space, and with one that has two
    spaces after the scheme, the request is refused for want of a
    token, whatever the verifier would say. *)
Theorem protect_no_token :
  protect U verify findById None = Unauthorized noToken /\
  (forall h, String.prefix "Bearer" h = false ->
             protect U verify findById (Some h) = Unauthorized noToken) /\
  (forall h, no_space h = true ->
             protect U verify findById (Some h) = Unauthorized noToken) /\
  (forall suffix more, no_space suffix = true ->
      protect U verify findById
        (Some ("Bearer" ++ suffix ++ String space (String space more))%string)
      = Unauthorized noToken).
Proof.
  split; [reflexivity|]. split; [|split].
  - intros h H. unfold protect, token. rewrite H, andb_false_r. reflexivity.
  - intros h H. unfold protect, token.
    rewrite (split_no_space h H).
    destruct (negb (String.eqb h "") && String.prefix "Bearer" h); reflexivity.
  - intros suffix more Hs. unfold protect, token. rewrite bearer_header.
    change ("Bearer" ++ suffix ++ String space (String space more))%string
      with (("Bearer" ++ suffix) ++ String space (String space more))%string.
    rewrite split_piece
      by (apply no_space_append; [reflexivity|exact Hs]).
    reflexivity.
Qed.
End Protect.

(** A request whose token verifies and whose user exists. *)
Lemma protect_next_only_verified_witness :
  exists t id,
    token (Some "Bearer good") = Some t /\ t <> "" /\
    (fun t => if String.eqb t "good" then Decoded "42" else VerifyThrew "JsonWebTokenError") t
      = Decoded id /\
    (fun id => if String.eqb id "42" then Found 7%nat else NotFound) id = Found 7%nat.
Proof.
  apply (protect_next_only_verified nat
           (fun t => if String.eqb t "good" then Decoded "42"
                     else VerifyThrew "JsonWebTokenError")
           (fun id => if String.eqb id "42" then Found 7%nat else NotFound)
           (Some "Bearer good") 7%nat).
  reflexivity.
Defined.

Lemma protect_no_token_witness :
  protect nat (fun _ => Decoded "42") (fun _ => Found 7%nat) (Some "Basic abc")
  = Unauthorized noToken.
Proof.
  apply (proj1 (proj2 (protect_no_token nat (fun _ => Decoded "42")
                         (fun _ => Found 7%nat))) "Basic abc").
  reflexivity.
Defined.

End MiddlewareProps.

(** ** The workout page: selecting and submitting *)

Module WorkoutPageProps.
Import Workout WorkoutPage.

(** X15. Selecting a workout type opens the form with an estimate that
    depends on the type and on the user only, not on what the form held
    before: for a duration type it is the rounded calories of 30
    minutes at moderate intensity, for any other type that of 3 sets of
    20 reps. *)
Theorem estimate_after_select (p p' : Page) (ty : WorkoutType) :
  user (form p) = user (form p') ->
  calculateEstimatedCalories (form (handleSelectWorkout p ty)) =
    calculateEstimatedCalories (form (handleSelectWorkout p' ty)) /\
  showForm (handleSelectWorkout p ty) = true /\
  calculateEstimatedCalories (form (handleSelectWorkout p ty)) =
    if String.eqb (inputType ty) "time"
    then Return (JS.Math_round (JS.to_number (caloriesPer30Min ty) * 1 * 1))
    else Return (JS.Math_round
                   (JS.or_default (caloriesPerRep ty) 0.3 * 60 * 1
                    * (userWeight (user (form p)) / 70))).
Proof.
  intros Hu. unfold handleSelectWorkout, calculateEstimatedCalories.
  cbn [form user selectedType duration reps sets intensity showForm].
  rewrite Hu. destruct (String.eqb (inputType ty) "time"); repeat split.
Qed.

(** A page that shows the list of workout types. *)
Definition listPage (f : State) : Page :=
  {| form := f; showForm := false; recentWorkouts := [];
     submitting := false; notification := None |}.

Lemma estimate_after_select_witness :
  calculateEstimatedCalories
    (form (handleSelectWorkout (listPage WorkoutProps.runningForm)
             (WorkoutProps.pushups None))) =
  calculateEstimatedCalories
    (form (handleSelectWorkout (listPage (WorkoutProps.pushupsForm None))
             (WorkoutProps.pushups None))).
Proof.
  apply (estimate_after_select (listPage WorkoutProps.runningForm)
           (listPage (WorkoutProps.pushupsForm None)) (WorkoutProps.pushups None)).
  reflexivity.
Defined.

(** X16. A workout that was logged is put first in the recent
    activity, of which the 4 newest entries stay behind it, so the list
    never grows beyond 5 entries; the form is closed and emptied, the
    estimate is back to 0, and the notification carries the XP
    earned. *)
Theorem submit_logged (api : WorkoutData -> ApiResult) (p : Page)
    (ty : WorkoutType) (response : Response) :
  selectedType (form p) = Some ty ->
  api (workoutData (form p) ty) = Resolved response ->
  let p' := handleSubmitWorkout api p in
  recentWorkouts p' = workout response :: firstn 4 (recentWorkouts p) /\
  (List.length (recentWorkouts p') <= 5)%nat /\
  showForm p' = false /\ submitting p' = false /\
  selectedType (form p') = None /\
  calculateEstimatedCalories (form p') = Return 0 /\
  notification p' =
    Some {| n_type := "success";
            n_message := WorkoutLogged (xpEarned (workout response)) |}.
Proof.
  intros Hty Hapi. unfold handleSubmitWorkout. rewrite Hty, Hapi.
  cbn zeta. cbn [recentWorkouts showForm submitting form selectedType notification].
  repeat split.
  cbn [List.length]. pose proof (firstn_le_length 4 (recentWorkouts p)). lia.
Qed.

(** A workout of the running scenario, logged. *)
Definition loggedRun : Response :=
  {| workout := {| w_type := "running"; caloriesBurned := 540; xpEarned := 270 |};
     r_user := Some {| xp := 1270; streak := 4 |} |}.

Definition runPage : Page :=
  {| form := WorkoutProps.runningForm; showForm := true; recentWorkouts := [];
     submitting := false; notification := None |}.

Lemma submit_logged_witness :
  recentWorkouts (handleSubmitWorkout (fun _ => Resolved loggedRun) runPage) =
    [workout loggedRun] /\
  (List.length (recentWorkouts (handleSubmitWorkout (fun _ => Resolved loggedRun) runPage))
   <= 5)%nat.
Proof.
  pose proof (submit_logged (fun _ => Resolved loggedRun) runPage
                WorkoutProps.running loggedRun eq_refl eq_refl) as H.
  cbv zeta in H. split; [exact (proj1 H)|exact (proj1 (proj2 H))].
Defined.

(** X17. A submission that fails loses nothing: the form and its
    values, the open form and the recent activity are as before, only
    the notification tells the error, with the server's message if
    there is one; and submitting again gives what a first attempt would
    have given.  With no workout type selected nothing happens. *)
Theorem submit_failed (api : WorkoutData -> ApiResult) (p : Page) :
  (forall ty message,
      selectedType (form p) = Some ty ->
      api (workoutData (form p) ty) = Rejected message ->
      form (handleSubmitWorkout api p) = form p /\
      showForm (handleSubmitWorkout api p) = showForm p /\
      recentWorkouts (handleSubmitWorkout api p) = recentWorkouts p /\
      submitting (handleSubmitWorkout api p) = false /\
      notification (handleSubmitWorkout api p) =
        Some {| n_type := "error"; n_message := Text (errorMessage message) |} /\
      forall api', handleSubmitWorkout api' (handleSubmitWorkout api p) =
                   handleSubmitWorkout api' p) /\
  (selectedType (form p) = None -> handleSubmitWorkout api p = p).
Proof.
  split.
  - intros ty message Hty Hapi. unfold handleSubmitWorkout at 1 2 3 4 5.
    rewrite Hty, Hapi. repeat split.
    intros api'. unfold handleSubmitWorkout. rewrite Hty, Hapi.
    cbn [form showForm recentWorkouts]. rewrite Hty. reflexivity.
  - unfold handleSubmitWorkout. now intros ->.
Qed.

Lemma submit_failed_witness :
  form (handleSubmitWorkout (fun _ => Rejected None) runPage) = form runPage /\
  notification (handleSubmitWorkout (fun _ => Rejected None) runPage) =
    Some {| n_type := "error"; n_message := Text "Failed to log workout" |}.
Proof.
  pose proof (proj1 (submit_failed (fun _ => Rejected None) runPage)
                WorkoutProps.running None eq_refl eq_refl) as H.
  split; [exact (proj1 H)|exact (proj1 (proj2 (proj2 (proj2 (proj2 H)))))].
Defined.

(** The recent activity never holds more than 5 entries once it holds
    at most 5. *)
Lemma recentWorkouts_bound (api : WorkoutData -> ApiResult) (p : Page) :
  (List.length (recentWorkouts p) <= 5)%nat ->
  (List.length (recentWorkouts (handleSubmitWorkout api p)) <= 5)%nat.
Proof.
  intros H. unfold handleSubmitWorkout.
  destruct (selectedType (form p)) as [ty|]; [|exact H].
  destruct (api _); cbn [recentWorkouts]; [|exact H].
  cbn [List.length]. pose proof (firstn_le_length 4 (recentWorkouts p)). lia.
Qed.

End WorkoutPageProps.

(** ** The order of binary64 Numbers *)

Module FloatOrder.

Lemma SFcompare_antisym (x y : spec_float) :
  SFcompare y x = option_map CompOpp (SFcompare x y).
Proof.
  destruct x as [sx|sx| |sx mx ex], y as [sy|sy| |sy my ey];
    try destruct sx; try destruct sy; cbn; try reflexivity;
    change (Pos.compare_cont Eq my mx) with (Pos.compare my mx);
    change (Pos.compare_cont Eq mx my) with (Pos.compare mx my);
    rewrite (Z.compare_antisym ex ey), (Pos.compare_antisym mx my);
    destruct (Z.compare ex ey), (Pos.compare mx my); reflexivity.
Qed.

Lemma SFleb_trans (x y z : spec_float) :
  SFleb x y = true -> SFleb y z = true -> SFleb x z = true.
Proof.
  unfold SFleb.
  destruct x as [sx|sx| |sx mx ex], y as [sy|sy| |sy my ey],
           z as [sz|sz| |sz mz ez];
    try destruct sx; try destruct sy; try destruct sz;
    cbn; try congruence;
    change (Pos.compare_cont Eq mx my) with (Pos.compare mx my);
    change (Pos.compare_cont Eq my mz) with (Pos.compare my mz);
    change (Pos.compare_cont Eq mx mz) with (Pos.compare mx mz);
    destruct (Z.compare_spec ex ey), (Z.compare_spec ey ez), (Z.compare_spec ex ez);
    try lia; cbn; try congruence;
    destruct (Pos.compare_spec mx my), (Pos.compare_spec my mz),
             (Pos.compare_spec mx mz);
    cbn; try congruence; lia.
Qed.

Lemma leb_trans (a b c : float) :
  (a <=? b)%float = true -> (b <=? c)%float = true -> (a <=? c)%float = true.
Proof. rewrite !leb_spec. apply SFleb_trans. Qed.

(** Of two Numbers that are not NaN the one that is not less than the
    other is at least the other. *)
Lemma not_ltb_leb (a b : float) :
  Prim2SF a <> S754_nan -> Prim2SF b <> S754_nan ->
  (a <? b)%float = false -> (b <=? a)%float = true.
Proof.
  rewrite ltb_spec, leb_spec. unfold SFltb, SFleb. intros Ha Hb.
  rewrite (SFcompare_antisym (Prim2SF a) (Prim2SF b)).
  destruct (SFcompare (Prim2SF a) (Prim2SF b)) as [[]|] eqn:E; cbn; try congruence.
  destruct (Prim2SF a) as [| | |[]], (Prim2SF b) as [| | |[]]; cbn in E; congruence.
Qed.

Lemma leb_refl (a : float) : Prim2SF a <> S754_nan -> (a <=? a)%float = true.
Proof.
  intros H. rewrite leb_spec. unfold SFleb.
  pose proof (JSFacts.SFeqb_refl _ H) as E. unfold SFeqb in E.
  destruct (SFcompare _ _) as [[]|]; congruence.
Qed.

(** *** Operations that keep away from NaN *)

Lemma SFsub_finite_not_nan (x : spec_float) (s : bool) (m : positive) (e : Z) :
  x <> S754_nan -> SFsub prec emax x (S754_finite s m e) <> S754_nan.
Proof.
  intros Hx. destruct x as [sx|sx| |sx mx ex]; cbn [SFsub];
    [discriminate|discriminate|congruence|].
  apply JSFacts.binary_normalize_not_nan.
Qed.

Lemma SFmul_finite_not_nan (x : spec_float) (s : bool) (m : positive) (e : Z) :
  x <> S754_nan -> SFmul prec emax x (S754_finite s m e) <> S754_nan.
Proof.
  intros Hx. destruct x as [sx|sx| |sx mx ex]; cbn [SFmul];
    [discriminate|discriminate|congruence|].
  apply JSFacts.binary_round_aux_not_nan. lia.
Qed.

Lemma SFmul_finite_l_not_nan (s : bool) (m : positive) (e : Z) (y : spec_float) :
  y <> S754_nan -> SFmul prec emax (S754_finite s m e) y <> S754_nan.
Proof.
  intros Hy. destruct y as [sy|sy| |sy my ey]; cbn [SFmul];
    [discriminate|discriminate|congruence|].
  apply JSFacts.binary_round_aux_not_nan. lia.
Qed.

End FloatOrder.

(** ** Finite Numbers *)

Module FloatFinite.
Import FloatOrder.

(** A Number that is neither NaN, nor infinite, nor a zero. *)
Definition finite (c : float) : Prop :=
  exists s m e, Prim2SF c = S754_finite s m e.

Lemma finite_not_nan (c : float) : finite c -> Prim2SF c <> S754_nan.
Proof. intros (s & m & e & H). congruence. Qed.

Lemma is_nan_not_nan (x : float) : is_nan x = false -> Prim2SF x <> S754_nan.
Proof.
  unfold is_nan. rewrite eqb_spec. intros H E. rewrite E in H. discriminate.
Qed.

(** A truthy Number that is not infinite is finite. *)
Lemma truthy_finite (x : float) :
  JS.truthy x = true -> is_infinity x = false -> finite x.
Proof.
  unfold finite, JS.truthy, is_nan, is_zero, is_infinity.
  rewrite !eqb_spec, abs_spec.
  change (Prim2SF zero) with (S754_zero false).
  change (Prim2SF infinity) with (S754_infinity false).
  destruct (Prim2SF x) as [s|s| |s m e]; cbn; try discriminate.
  intros _ _. now exists s, m, e.
Qed.

Lemma sub_finite_not_nan (x c : float) :
  Prim2SF x <> S754_nan -> finite c -> Prim2SF (x - c) <> S754_nan.
Proof.
  intros Hx (s & m & e & Hc). rewrite sub_spec, Hc.
  now apply SFsub_finite_not_nan.
Qed.

Lemma div_finite_not_nan (x c : float) :
  Prim2SF x <> S754_nan -> finite c -> Prim2SF (x / c) <> S754_nan.
Proof.
  intros Hx (s & m & e & Hc). rewrite div_spec, Hc.
  now apply JSFacts.SFdiv_not_nan.
Qed.

Lemma mul_finite_not_nan (x c : float) :
  Prim2SF x <> S754_nan -> finite c -> Prim2SF (x * c) <> S754_nan.
Proof.
  intros Hx (s & m & e & Hc). rewrite mul_spec, Hc.
  now apply SFmul_finite_not_nan.
Qed.

Lemma finite_mul_not_nan (c y : float) :
  finite c -> Prim2SF y <> S754_nan -> Prim2SF (c * y) <> S754_nan.
Proof.
  intros (s & m & e & Hc) Hy. rewrite mul_spec, Hc.
  now apply SFmul_finite_l_not_nan.
Qed.

Ltac finite_constant := do 3 eexists; vm_compute; reflexivity.

Lemma finite_5 : finite 5. Proof. finite_constant. Qed.
Lemma finite_30 : finite 30. Proof. finite_constant. Qed.
Lemma finite_40 : finite 40. Proof. finite_constant. Qed.
Lemma finite_100 : finite 100. Proof. finite_constant. Qed.

Lemma intensityMod_finite (intensity : string) :
  finite (Workout.intensityMod intensity).
Proof.
  unfold Workout.intensityMod.
  destruct (String.eqb intensity "high"); [finite_constant|].
  destruct (String.eqb intensity "low"); finite_constant.
Qed.

End FloatFinite.

(** ** The calorie estimate is a number *)

Module EstimateNumber.
Import Workout FloatFinite.

(** X18. For a duration type whose calories per 30 minutes are a
    number other than 0, NaN and the infinities, and a duration that is
    not NaN, the estimate shown is a number, never NaN, whatever the
    intensity. *)
Theorem duration_estimate_is_number (st : State) (ty : WorkoutType) (rate : float) :
  selectedType st = Some ty ->
  inputType ty = "time" ->
  caloriesPer30Min ty = Some rate ->
  JS.truthy rate = true -> is_infinity rate = false ->
  is_nan (duration st) = false ->
  exists v, calculateEstimatedCalories st = Return v /\ is_nan v = false.
Proof.
  intros Hty Hmode Hrate Ht Hi Hd.
  unfold calculateEstimatedCalories. rewrite Hty, Hmode, Hrate.
  cbn [String.eqb Ascii.eqb Bool.eqb JS.to_number].
  eexists. split; [reflexivity|].
  apply JSFacts.is_nan_false, JSFacts.Math_round_not_nan.
  apply mul_finite_not_nan; [|apply intensityMod_finite].
  apply finite_mul_not_nan; [now apply truthy_finite|].
  apply div_finite_not_nan; [now apply is_nan_not_nan|apply finite_30].
Qed.

Lemma duration_estimate_is_number_witness :
  exists v, calculateEstimatedCalories WorkoutProps.runningForm = Return v /\
            is_nan v = false.
Proof.
  apply (duration_estimate_is_number WorkoutProps.runningForm
           WorkoutProps.running 300); reflexivity.
Defined.

End EstimateNumber.

(** ** The body visualizer *)

Module BodyProps.
Import BodyVisualizer FloatOrder FloatFinite.

(** The place of a category in the order from lean to fat. *)
Definition order (c : Category) : nat :=
  if String.eqb (label c) "Essential" then 0
  else if String.eqb (label c) "Athletic" then 1
  else if String.eqb (label c) "Fitness" then 2
  else if String.eqb (label c) "Average" then 3
  else 4.

Lemma nan_leb (t : float) : (nan <=? t)%float = false.
Proof. rewrite leb_spec. reflexivity. Qed.

(** X19. The body fat category never gets leaner when the body fat
    grows: for the same gender a greater body fat gives the same or a
    later category in the order Essential, Athletic, Fitness, Average,
    Above Average.  A body fat that is NaN is shown as Above
    Average. *)
Theorem category_monotone (bodyFat bodyFat' : float) (gender : string) :
  (bodyFat <=? bodyFat')%float = true ->
  (order (getBodyFatCategory bodyFat gender)
   <= order (getBodyFatCategory bodyFat' gender))%nat /\
  label (getBodyFatCategory nan gender) = "Above Average".
Proof.
  intros H. split.
  - unfold getBodyFatCategory. destruct (ranges gender) as [t1 t2 t3 t4].
    cbn [essential athletes fitness average].
    destruct (bodyFat' <=? t1)%float eqn:A1;
      [rewrite (leb_trans _ _ _ H A1); cbn; lia|].
    destruct (bodyFat' <=? t2)%float eqn:A2;
      [rewrite (leb_trans _ _ _ H A2); destruct (bodyFat <=? t1)%float; cbn; lia|].
    destruct (bodyFat' <=? t3)%float eqn:A3;
      [rewrite (leb_trans _ _ _ H A3);
       destruct (bodyFat <=? t1)%float, (bodyFat <=? t2)%float; cbn; lia|].
    destruct (bodyFat' <=? t4)%float eqn:A4;
      [rewrite (leb_trans _ _ _ H A4);
       destruct (bodyFat <=? t1)%float, (bodyFat <=? t2)%float,
                (bodyFat <=? t3)%float; cbn; lia|].
    destruct (bodyFat <=? t1)%float, (bodyFat <=? t2)%float,
             (bodyFat <=? t3)%float, (bodyFat <=? t4)%float; cbn; lia.
  - unfold getBodyFatCategory. rewrite !nan_leb. reflexivity.
Qed.

Lemma category_monotone_witness :
  (order (getBodyFatCategory 11 "male") <= order (getBodyFatCategory 22.5 "male"))%nat /\
  label (getBodyFatCategory nan "male") = "Above Average".
Proof.
  apply (category_monotone 11 22.5 "male"). reflexivity.
Defined.

(** X20. At the same body fat the category for a woman is never later
    in the order than the category for any other gender. *)
Theorem category_female_first (bodyFat : float) (gender : string) :
  (order (getBodyFatCategory bodyFat "female")
   <= order (getBodyFatCategory bodyFat gender))%nat.
Proof.
  unfold getBodyFatCategory, ranges.
  change (String.eqb "female" "female") with true.
  destruct (String.eqb gender "female"); [apply Nat.le_refl|].
  cbn [essential athletes fitness average].
  destruct (bodyFat <=? 5)%float eqn:A1.
  { rewrite (leb_trans bodyFat 5 12 A1 eq_refl). cbn. lia. }
  destruct (bodyFat <=? 12)%float eqn:A2; [cbn; lia|].
  destruct (bodyFat <=? 18)%float eqn:A3; [cbn; lia|].
  destruct (bodyFat <=? 25)%float eqn:A4; [cbn; lia|].
  destruct (bodyFat <=? 32)%float; cbn; lia.
Qed.

(** *** The mark on the scale *)

Lemma Math_max_right (v c : float) :
  Prim2SF v <> S754_nan -> Prim2SF c <> S754_nan ->
  Prim2SF (JS.Math_max v c) <> S754_nan /\ (c <=? JS.Math_max v c)%float = true.
Proof.
  intros Hv Hc. unfold JS.Math_max.
  rewrite (JSFacts.is_nan_false v Hv), (JSFacts.is_nan_false c Hc). cbn [orb].
  destruct (v <? c)%float eqn:A; [split; [exact Hc|now apply leb_refl]|].
  pose proof (not_ltb_leb v c Hv Hc A) as Hle.
  destruct (c <? v)%float; [split; [exact Hv|exact Hle]|].
  destruct (JS.is_neg_zero v); [split; [exact Hc|now apply leb_refl]|].
  split; [exact Hv|exact Hle].
Qed.

Lemma Math_min_between (lo r hi : float) :
  Prim2SF r <> S754_nan -> Prim2SF hi <> S754_nan ->
  (lo <=? r)%float = true -> (lo <=? hi)%float = true ->
  (lo <=? Math_min r hi)%float = true /\ (Math_min r hi <=? hi)%float = true.
Proof.
  intros Hr Hhi Hlo Hlh. unfold Math_min.
  rewrite (JSFacts.is_nan_false r Hr), (JSFacts.is_nan_false hi Hhi). cbn [orb].
  destruct (r <? hi)%float eqn:A; [split; [exact Hlo|now apply JSFacts.ltb_leb]|].
  destruct (hi <? r)%float eqn:B; [split; [exact Hlh|now apply leb_refl]|].
  pose proof (not_ltb_leb hi r Hhi Hr B) as Hle.
  destruct (JS.is_neg_zero r); [split; [exact Hlo|exact Hle]|].
  split; [exact Hlh|now apply leb_refl].
Qed.

(** X21. The mark on the body fat scale stays on the scale: for every
    body fat that is not NaN its place is between 0 and 100 percent. *)
Theorem indicatorTop_on_scale (bodyFat : float) :
  is_nan bodyFat = false ->
  (0 <=? indicatorTop bodyFat)%float = true /\
  (indicatorTop bodyFat <=? 100)%float = true.
Proof.
  intros H. unfold indicatorTop.
  assert (Prim2SF ((bodyFat - 5) / 40 * 100) <> S754_nan) as Hv.
  { apply mul_finite_not_nan; [|apply finite_100].
    apply div_finite_not_nan; [|apply finite_40].
    apply sub_finite_not_nan; [now apply is_nan_not_nan|apply finite_5]. }
  destruct (Math_max_right _ 0 Hv ltac:(vm_compute; discriminate)) as [Hn Hle].
  apply Math_min_between; trivial.
  apply finite_not_nan, finite_100.
Qed.

Lemma indicatorTop_on_scale_witness :
  (0 <=? indicatorTop 60)%float = true /\ (indicatorTop 60 <=? 100)%float = true.
Proof.
  apply (indicatorTop_on_scale 60). reflexivity.
Defined.

End BodyProps.

(** ** The login route *)

Module LoginRouteProps.
Import LoginRoute.

Section Handler.
Variable P : Type.
Variable toLowerCase : string -> string.
Variable findOne : option string -> option string -> option (Account P).
Variable comparePassword : Account P -> string -> bool.
Variable generateToken : string -> string.
Variable tz : Z.

Abbreviation login := (login P toLowerCase findOne comparePassword generateToken tz).


End Handler.

(** A store with one user, whose password is ["secret"]. *)
Definition hunter : Account nat :=
  {| id := "u1"; profile := 0%nat;
     state := {| Auth.streak := 4; Auth.lastWorkoutDate := Some 0 |} |}.

Definition oneUser (email username : option string) : option (Account nat) :=
  match username with
  | Some u => if String.eqb u "hunter" then Some hunter else None
  | None => None
  end.

Definition checkPassword (user : Account nat) (pw : string) : bool :=
  String.eqb pw "secret".



End LoginRouteProps.
